(** * google-cloud-python: the Datastore entity and the Logging GAX wrapper

    A shallow embedding of [gcloud/datastore/entity.py] and of
    [google/cloud/logging/_gax.py], and the properties their specification
    states about them.

    Python dictionaries with string keys are finite maps ([gmap string _]),
    Python sets of names are [gset string].  Code that can raise returns a
    [result]; code that talks to a collaborator (the datastore connection,
    a transaction, a GAX stub) receives the collaborator's replies as
    functions and, where the calls themselves matter, records them in a log. *)

From Stdlib Require Import ZArith Floats.
From stdpp Require Import base option list strings pretty gmap.

#[local] Set Warnings "-register-all".
#[local] Open Scope Z_scope.

(** ** Python exceptions and fallible computations *)

(** [grpc.StatusCode]. *)
Inductive StatusCode :=
| OK | CANCELLED | UNKNOWN | INVALID_ARGUMENT | DEADLINE_EXCEEDED | NOT_FOUND
| ALREADY_EXISTS | PERMISSION_DENIED | UNAUTHENTICATED | RESOURCE_EXHAUSTED
| FAILED_PRECONDITION | ABORTED | OUT_OF_RANGE | UNIMPLEMENTED | INTERNAL
| UNAVAILABLE | DATA_LOSS.

Global Instance StatusCode_eq_dec : EqDecision StatusCode.
Proof. solve_decision. Defined.

(** The exceptions the two modules raise or let through.  [GaxError] carries
    its [cause]; [RpcError] is the gRPC error a status code is read from. *)
Inductive exn :=
| NoKey
| KeyError (key : string)
| TypeError
| ValueError (msg : string)
| AttributeError
| OverflowError
| RpcError (code : StatusCode)
| GaxError (cause : exn)
| Conflict (path : string)
| NotFound (path : string)
| OtherError (name : string).

Inductive result (A : Type) :=
| Ok (a : A)
| Raise (e : exn).
Arguments Ok {A} a.
Arguments Raise {A} e.

Global Instance result_ret : MRet result := λ A a, Ok a.
Global Instance result_bind : MBind result :=
  λ A B f r, match r with Ok a => f a | Raise e => Raise e end.

(** A [for] loop whose body can raise: the body is run on the elements in
    order, threading the object it updates. *)
Fixpoint for_each {S A : Type} (body : S → A → result S) (s : S) (l : list A)
  : result S :=
  match l with
  | [] => Ok s
  | x :: l => s' ← body s x; for_each body s' l
  end.

(** [a or b] on references that are [None] or an object (every object here
    is truthy). *)
Definition py_or {A : Type} (a b : option A) : option A :=
  match a with Some _ => a | None => b end.

(** * gcloud/datastore/entity.py *)

Module Datastore.

(** [gcloud.datastore.key.Key] is not among the sources.  The entity uses a
    key only through these members, so the key type is a parameter with this
    interface; [completed_key] may refuse (it returns a [result]). *)
Class KeyLike (Key KeyPB Id : Type) := {
  dataset_id : Key → string;
  kind : Key → string;
  is_partial : Key → bool;
  to_protobuf : Key → KeyPB;
  completed_key : Key → Id → result Key;
  path : Key → string;
}.

Section Entity.
Context {Key KeyPB Id Txn V : Type} `{!KeyLike Key KeyPB Id}.

(** [class Entity(dict)]: the dictionary of fields, the optional key and
    the set of names excluded from indexing. *)
Record Entity := mkEntity {
  fields : gmap string V;
  key : option Key;
  _exclude_from_indexes : gset string;
}.

(** [Entity.__init__]. *)
Definition Entity_init (key : option Key) (exclude_from_indexes : list string)
  : Entity :=
  {| fields := ∅; key := key;
     _exclude_from_indexes := list_to_set exclude_from_indexes |}.

(** The [kind] property: [None] without a key. *)
Definition Entity_kind (self : Entity) : option string :=
  match key self with
  | Some k => Some (kind k)
  | None => None
  end.

(** The [exclude_from_indexes] property, a frozen copy of the set. *)
Definition exclude_from_indexes (self : Entity) : gset string :=
  _exclude_from_indexes self.

(** The calls [save] makes on its collaborators, with their arguments. *)
Inductive call :=
| save_entity_call (dataset_id : string) (key_pb : KeyPB)
    (properties : gmap string V) (exclude_from_indexes : gset string)
| transaction_call
| add_auto_id_entity_call (transaction : Txn) (entity : Entity).

(** The connection [save] is given: what each call replies, or raises,
    after the calls made so far.  [add_auto_id_entity] is the method of the
    transaction object that [transaction()] returned.  A call answers; it
    does not write to the entity it is given while it runs. *)
Record Connection := {
  save_entity : list call → string → KeyPB → gmap string V → gset string →
                result (bool * Id);
  transaction : list call → result (option Txn);
  add_auto_id_entity : list call → Txn → Entity → result unit;
}.

(** A method runs on [self] and on the log of calls made so far; an
    exception leaves both as they were when it was raised. *)
Definition M (A : Type) : Type := Entity * list call → result A * (Entity * list call).

#[export] Instance M_ret : MRet M := λ A a s, (Ok a, s).
#[export] Instance M_bind : MBind M :=
  λ A B f m s, match m s with
               | (Ok a, s') => f a s'
               | (Raise e, s') => (Raise e, s')
               end.

Definition raise {A : Type} (e : exn) : M A := λ s, (Raise e, s).
Definition lift {A : Type} (r : result A) : M A := λ s, (r, s).
Definition get_self : M Entity := λ s, (Ok s.1, s).
Definition set_key (k : Key) : M unit :=
  λ s, (Ok (), ({| fields := fields s.1; key := Some k;
                   _exclude_from_indexes := _exclude_from_indexes s.1 |}, s.2)).
(** A call on a collaborator: it is logged, and answered from the log
    before it. *)
Definition invoke {A : Type} (c : call) (reply : list call → result A) : M A :=
  λ s, (reply s.2, (s.1, s.2 ++ [c])).

(** The [_must_key] property. *)
Definition _must_key : M Key :=
  self ← get_self;
  match key self with
  | None => raise NoKey
  | Some k => mret k
  end.

(** [_implicit_environ.CONNECTION], the module-level default connection. *)
Variable _implicit_environ_CONNECTION : option Connection.

(** [Entity.save]. *)
Definition save (connection : option Connection) : M unit :=
  let connection := py_or connection _implicit_environ_CONNECTION in
  key ← _must_key;
  connection ← match connection with
               | Some c => mret c
               | None => raise AttributeError
               end;
  self ← get_self;
  '(assigned, new_id) ←
    invoke (save_entity_call (dataset_id key) (to_protobuf key) (fields self)
              (exclude_from_indexes self))
      (λ log, save_entity connection log (dataset_id key) (to_protobuf key)
                (fields self) (exclude_from_indexes self));
  transaction ← invoke transaction_call (transaction connection);
  _ ← match transaction with
      | Some txn =>
          if is_partial key then
            self ← get_self;
            invoke (add_auto_id_entity_call txn self)
              (λ log, add_auto_id_entity connection log txn self)
          else mret ()
      | None => mret ()
      end;
  if (assigned : bool) then
    self ← get_self;
    match Entity.key self with
    | Some k => k' ← lift (completed_key k new_id); set_key k'
    | None => raise AttributeError
    end
  else mret ().

(** How often a log registers an entity with a transaction. *)
Definition is_registration (c : call) : bool :=
  match c with add_auto_id_entity_call _ _ => true | _ => false end.
Definition registrations (log : list call) : nat :=
  length (filter (λ c, is_registration c = true) log).

End Entity.
End Datastore.

(** * Python values, and the libraries _gax.py builds on *)

(** A native [datetime.datetime], named by the instant it denotes. *)
Inductive datetime := Datetime (microseconds_since_epoch : Z).

(** [google.protobuf.any_pb2.Any]. *)
Record Any := mkAny { type_url : string; any_value : string }.

(** The values a log-entry mapping holds: JSON values, datetimes, and the
    protobuf message a decoded [protoPayload] is. *)
Inductive value :=
| VNone
| VBool (b : bool)
| VInt (n : Z)
| VFloat (x : float)
| VStr (s : string)
| VDatetime (d : datetime)
| VList (l : list value)
| VDict (d : gmap string value)
| VMessage (m : Any).

(** [v[k]]. *)
Definition getitem (v : value) (k : string) : result value :=
  match v with
  | VDict d => match d !! k with Some x => Ok x | None => Raise (KeyError k) end
  | _ => Raise TypeError
  end.

(** [k in v]: a key of a dict, a substring of a string, an element of a
    list; other values are not containers. *)
Definition contains (v : value) (k : string) : result bool :=
  match v with
  | VDict d => Ok (bool_decide (is_Some (d !! k)))
  | VStr s => Ok (bool_decide (is_Some (String.index 0 k s)))
  | VList l =>
      Ok (existsb (λ x, match x with VStr s => String.eqb s k | _ => false end) l)
  | _ => Raise TypeError
  end.

(** [v.items()]. *)
Definition items (v : value) : result (list (string * value)) :=
  match v with
  | VDict d => Ok (map_to_list d)
  | _ => Raise AttributeError
  end.

(** Results held in a map, gathered: the first exception met, or the map
    of the values. *)
Definition map_sequence {A : Type} (m : gmap string (result A))
  : result (gmap string A) :=
  l ← mapM (λ kr : string * result A, v ← kr.2; Ok (kr.1, v)) (map_to_list m);
  Ok (list_to_map l).

(** [google.logging.type.log_severity_pb2.LogSeverity]: the enum's names
    and numbers, [Name] and [Value] as protobuf's enum wrapper defines
    them. *)
Module LogSeverity.
Definition values : list (string * Z) :=
  [("DEFAULT", 0); ("DEBUG", 100); ("INFO", 200); ("NOTICE", 300);
   ("WARNING", 400); ("ERROR", 500); ("CRITICAL", 600); ("ALERT", 700);
   ("EMERGENCY", 800)].

Definition Name (number : Z) : result string :=
  match List.find (λ nv, Z.eqb nv.2 number) values with
  | Some nv => Ok nv.1
  | None => Raise (ValueError ("Enum LogSeverity has no name defined for value "
                               +:+ pretty number))
  end.

Definition Value (name : string) : result Z :=
  match List.find (λ nv, String.eqb nv.1 name) values with
  | Some nv => Ok nv.2
  | None => Raise (ValueError ("Enum LogSeverity has no value defined for name "
                               +:+ name))
  end.
End LogSeverity.

(** ** Protocol buffer messages

    The generated message classes, as far as the wrapper touches them.  A
    field read on a message yields the field's default when it is not set.
    Assigning to a scalar field checks the Python type of the value as
    protobuf's type checkers do. *)
Module Protobuf.

Definition check_string (v : value) : result string :=
  match v with
  | VStr s => Ok s
  | _ => Raise TypeError
  end.

(** What a bool field holds.  The checker of a bool field accepts a
    [bool] or an [int] and stores the object it is given, as it is: a
    field assigned [5] reads back as [5]. *)
Inductive bool_or_int :=
| PyBool (b : bool)
| PyInt (n : Z).

Definition as_value (x : bool_or_int) : value :=
  match x with
  | PyBool b => VBool b
  | PyInt n => VInt n
  end.

Definition check_bool (v : value) : result bool_or_int :=
  match v with
  | VBool b => Ok (PyBool b)
  | VInt n => Ok (PyInt n)
  | _ => Raise TypeError
  end.

(** A signed integer field of [bits] bits: the checker accepts an [int]
    in range, and stores it as an [int] ([True] as [1]). *)
Definition check_int (bits : Z) (v : value) : result Z :=
  match v with
  | VInt n =>
      if bool_decide (- 2 ^ (bits - 1) ≤ n < 2 ^ (bits - 1)) then Ok n
      else Raise (ValueError ("Value out of range: " +:+ pretty n))
  | VBool b => Ok (Z.b2z b)
  | _ => Raise TypeError
  end.

(** [google.protobuf.Timestamp]. *)
Module Timestamp.
Record t := mk { seconds : Z; nanos : Z }.
Definition default : t := {| seconds := 0; nanos := 0 |}.
End Timestamp.

(** What a double field holds.  The checker of a double field accepts a
    [float] or an [int] and stores the object it is given, as it is. *)
Inductive number :=
| IntNumber (n : Z)
| FloatNumber (x : float).

Definition number_as_value (x : number) : value :=
  match x with
  | IntNumber n => VInt n
  | FloatNumber x => VFloat x
  end.

(** [google.protobuf.Value], with the [kind] oneof as constructors, and
    [google.protobuf.Struct] as the map of its [fields]. *)
Inductive Value :=
| KindUnset
| NullValue
| NumberValue (number_value : number)
| StringValue (string_value : string)
| BoolValue (bool_value : bool)
| StructValue (fields : gmap string Value)
| ListValue (values : list Value).

Definition WhichOneof (value_pb : Value) : option string :=
  match value_pb with
  | KindUnset => None
  | NullValue => Some "null_value"
  | NumberValue _ => Some "number_value"
  | StringValue _ => Some "string_value"
  | BoolValue _ => Some "bool_value"
  | StructValue _ => Some "struct_value"
  | ListValue _ => Some "list_value"
  end.

Definition string_value (value_pb : Value) : string :=
  match value_pb with StringValue s => s | _ => "" end.
Definition bool_value (value_pb : Value) : bool :=
  match value_pb with BoolValue b => b | _ => false end.
Definition number_value (value_pb : Value) : number :=
  match value_pb with NumberValue x => x | _ => FloatNumber 0%float end.

(** [Struct.__setitem__], by [_SetStructValue] of protobuf 3.0: scalars
    only, each assigned to its field as it is. *)
Definition _SetStructValue (v : value) : result Value :=
  match v with
  | VNone => Ok NullValue
  | VBool b => Ok (BoolValue b)
  | VStr s => Ok (StringValue s)
  | VInt n => Ok (NumberValue (IntNumber n))
  | VFloat x => Ok (NumberValue (FloatNumber x))
  | _ => Raise (ValueError "Unexpected type")
  end.

Definition Struct_setitem (key : string) (v : value) (struct_pb : gmap string Value)
  : result (gmap string Value) :=
  value_pb ← _SetStructValue v; Ok (<[key := value_pb]> struct_pb).

(** [google.api.monitored_resource_pb2.MonitoredResource]. *)
Module MonitoredResource.
Record t := mk { type : string; labels : gmap string string }.
Definition default : t := {| type := ""; labels := ∅ |}.
Definition set_type (s : string) (m : t) : t :=
  {| type := s; labels := labels m |}.
End MonitoredResource.

(** [google.logging.type.http_request_pb2.HttpRequest]. *)
Module HttpRequest.
Record t := mk {
  request_method : string;
  request_url : string;
  request_size : Z;
  status : Z;
  response_size : Z;
  user_agent : string;
  remote_ip : string;
  referer : string;
  cache_hit : bool_or_int;
}.
Definition default : t :=
  {| request_method := ""; request_url := ""; request_size := 0; status := 0;
     response_size := 0; user_agent := ""; remote_ip := ""; referer := "";
     cache_hit := PyBool false |}.

(** [setattr(request, pb_name, v)]. *)
Definition setattr (pb_name : string) (v : value) (m : t) : result t :=
  if decide (pb_name = "request_method") then
    s ← check_string v;
    Ok (mk s (request_url m) (request_size m) (status m) (response_size m)
          (user_agent m) (remote_ip m) (referer m) (cache_hit m))
  else if decide (pb_name = "request_url") then
    s ← check_string v;
    Ok (mk (request_method m) s (request_size m) (status m) (response_size m)
          (user_agent m) (remote_ip m) (referer m) (cache_hit m))
  else if decide (pb_name = "request_size") then
    n ← check_int 64 v;
    Ok (mk (request_method m) (request_url m) n (status m) (response_size m)
          (user_agent m) (remote_ip m) (referer m) (cache_hit m))
  else if decide (pb_name = "status") then
    n ← check_int 32 v;
    Ok (mk (request_method m) (request_url m) (request_size m) n (response_size m)
          (user_agent m) (remote_ip m) (referer m) (cache_hit m))
  else if decide (pb_name = "response_size") then
    n ← check_int 64 v;
    Ok (mk (request_method m) (request_url m) (request_size m) (status m) n
          (user_agent m) (remote_ip m) (referer m) (cache_hit m))
  else if decide (pb_name = "user_agent") then
    s ← check_string v;
    Ok (mk (request_method m) (request_url m) (request_size m) (status m)
          (response_size m) s (remote_ip m) (referer m) (cache_hit m))
  else if decide (pb_name = "remote_ip") then
    s ← check_string v;
    Ok (mk (request_method m) (request_url m) (request_size m) (status m)
          (response_size m) (user_agent m) s (referer m) (cache_hit m))
  else if decide (pb_name = "referer") then
    s ← check_string v;
    Ok (mk (request_method m) (request_url m) (request_size m) (status m)
          (response_size m) (user_agent m) (remote_ip m) s (cache_hit m))
  else if decide (pb_name = "cache_hit") then
    b ← check_bool v;
    Ok (mk (request_method m) (request_url m) (request_size m) (status m)
          (response_size m) (user_agent m) (remote_ip m) (referer m) b)
  else Raise AttributeError.
End HttpRequest.

(** [google.logging.v2.log_entry_pb2.LogEntryOperation]. *)
Module LogEntryOperation.
Record t := mk {
  id : string;
  producer : string;
  first : bool_or_int;
  last : bool_or_int;
}.
Definition default : t :=
  {| id := ""; producer := ""; first := PyBool false; last := PyBool false |}.
Definition set_id (s : string) (m : t) : t := mk s (producer m) (first m) (last m).
Definition set_producer (s : string) (m : t) : t := mk (id m) s (first m) (last m).
Definition set_first (b : bool_or_int) (m : t) : t :=
  mk (id m) (producer m) b (last m).
Definition set_last (b : bool_or_int) (m : t) : t :=
  mk (id m) (producer m) (first m) b.
End LogEntryOperation.

(** [google.logging.v2.log_entry_pb2.LogEntry].  The three payload fields
    are the members of one oneof: setting one clears the others. *)
Module LogEntry.
Inductive payload_oneof :=
| PayloadUnset
| ProtoPayload (proto_payload : Any)
| TextPayload (text_payload : string)
| JsonPayload (json_payload : gmap string Value).

Record t := mk {
  log_name : string;
  resource : MonitoredResource.t;
  timestamp : Timestamp.t;
  severity : Z;
  insert_id : string;
  http_request : HttpRequest.t;
  labels : gmap string string;
  operation : LogEntryOperation.t;
  payload : payload_oneof;
}.

(** [LogEntry()]. *)
Definition default : t :=
  {| log_name := ""; resource := MonitoredResource.default;
     timestamp := Timestamp.default; severity := 0; insert_id := "";
     http_request := HttpRequest.default; labels := ∅;
     operation := LogEntryOperation.default; payload := PayloadUnset |}.

Definition set_log_name (s : string) (m : t) : t :=
  mk s (resource m) (timestamp m) (severity m) (insert_id m) (http_request m)
    (labels m) (operation m) (payload m).
Definition set_resource (r : MonitoredResource.t) (m : t) : t :=
  mk (log_name m) r (timestamp m) (severity m) (insert_id m) (http_request m)
    (labels m) (operation m) (payload m).
Definition set_timestamp (ts : Timestamp.t) (m : t) : t :=
  mk (log_name m) (resource m) ts (severity m) (insert_id m) (http_request m)
    (labels m) (operation m) (payload m).
Definition set_severity (n : Z) (m : t) : t :=
  mk (log_name m) (resource m) (timestamp m) n (insert_id m) (http_request m)
    (labels m) (operation m) (payload m).
Definition set_insert_id (s : string) (m : t) : t :=
  mk (log_name m) (resource m) (timestamp m) (severity m) s (http_request m)
    (labels m) (operation m) (payload m).
Definition set_http_request (r : HttpRequest.t) (m : t) : t :=
  mk (log_name m) (resource m) (timestamp m) (severity m) (insert_id m) r
    (labels m) (operation m) (payload m).
Definition set_labels (l : gmap string string) (m : t) : t :=
  mk (log_name m) (resource m) (timestamp m) (severity m) (insert_id m)
    (http_request m) l (operation m) (payload m).
Definition set_operation (o : LogEntryOperation.t) (m : t) : t :=
  mk (log_name m) (resource m) (timestamp m) (severity m) (insert_id m)
    (http_request m) (labels m) o (payload m).
Definition set_payload (p : payload_oneof) (m : t) : t :=
  mk (log_name m) (resource m) (timestamp m) (severity m) (insert_id m)
    (http_request m) (labels m) (operation m) p.

(** The payload fields as attributes: the default when another member of
    the oneof, or none, is set. *)
Definition text_payload (m : t) : string :=
  match payload m with TextPayload s => s | _ => "" end.
Definition json_payload (m : t) : gmap string Value :=
  match payload m with JsonPayload s => s | _ => ∅ end.
Definition proto_payload (m : t) : Any :=
  match payload m with ProtoPayload a => a | _ => mkAny "" "" end.

(** [HasField] on the members of the payload oneof, the fields the wrapper
    asks it about. *)
Definition HasField (m : t) (field_name : string) : bool :=
  match payload m with
  | PayloadUnset => false
  | ProtoPayload _ => String.eqb field_name "proto_payload"
  | TextPayload _ => String.eqb field_name "text_payload"
  | JsonPayload _ => String.eqb field_name "json_payload"
  end.

(** [setattr(entry_pb, pb_name, v)] for the scalar fields; message and map
    fields do not accept assignment. *)
Definition setattr (pb_name : string) (v : value) (m : t) : result t :=
  if decide (pb_name = "log_name") then
    s ← check_string v; Ok (set_log_name s m)
  else if decide (pb_name = "insert_id") then
    s ← check_string v; Ok (set_insert_id s m)
  else if decide (pb_name = "text_payload") then
    s ← check_string v; Ok (set_payload (TextPayload s) m)
  else if decide (pb_name = "severity") then
    n ← check_int 32 v; Ok (set_severity n m)
  else Raise AttributeError.
End LogEntry.

(** A message object is truthy: the message classes define neither
    [__bool__] nor [__len__]. *)
Definition message_truthy {A : Type} (m : A) : bool := true.

(** [google.logging.v2.logging_config_pb2.LogSink] and
    [google.logging.v2.logging_metrics_pb2.LogMetric]. *)
Module LogSink.
Record t := mk { name : string; destination : string; filter : string }.
End LogSink.

Module LogMetric.
Record t := mk { name : string; description : string; filter : string }.
End LogMetric.

End Protobuf.

(** * google/cloud/logging/_gax.py *)

Module Logging.
Import Protobuf.

(** What [_gax.py] imports and the sources do not hold: the two timestamp
    helpers of [google.cloud._helpers], and [Parse(json.dumps(payload),
    message)] of [json] and [google.protobuf.json_format], which parses the
    payload's JSON text into the message, in place: it answers [None] when
    it wrote no field of the message, which is then as it was, and
    [Some any] when it wrote the message, which is then [any].  They are
    parameters; each may raise. *)
Class Helpers := {
  _datetime_to_pb_timestamp : value → result Timestamp.t;
  _pb_timestamp_to_rfc3339 : Timestamp.t → result string;
  Parse_json_dumps : value → Any → result (option Any);
}.

(** [google.gax]: the options of a call, a page of results with the token
    of the next one, and the three generated API objects, each method given
    by what it returns or raises. *)
Module Gax.
Inductive PageToken := INITIAL_PAGE | Token (token : string).
Record CallOptions := { page_token : PageToken }.

Record LoggingServiceV2Api := {
  list_log_entries : list string → string → string → Z → CallOptions →
                     result (list LogEntry.t * string);
  write_log_entries : list LogEntry.t → option string → option value →
                      option value → bool → option CallOptions → result unit;
  delete_log : string → option CallOptions → result unit;
}.

Record ConfigServiceV2Api := {
  list_sinks : string → Z → CallOptions → result (list LogSink.t * string);
  create_sink : string → LogSink.t → option CallOptions → result LogSink.t;
  get_sink : string → option CallOptions → result LogSink.t;
  update_sink : string → LogSink.t → option CallOptions → result LogSink.t;
  delete_sink : string → option CallOptions → result unit;
}.

Record MetricsServiceV2Api := {
  list_log_metrics : string → Z → CallOptions → result (list LogMetric.t * string);
  create_log_metric : string → LogMetric.t → option CallOptions → result LogMetric.t;
  get_log_metric : string → option CallOptions → result LogMetric.t;
  update_log_metric : string → LogMetric.t → option CallOptions → result LogMetric.t;
  delete_log_metric : string → option CallOptions → result unit;
}.
End Gax.

(** [google.gax.grpc.exc_to_code]: the status code of a gRPC error, [None]
    for anything else. *)
Definition exc_to_code (exc : exn) : option StatusCode :=
  match exc with
  | RpcError code => Some code
  | _ => None
  end.

(** [try: body except GaxError as exc: if exc_to_code(exc.cause) == code:
    raise translated; raise] *)
Definition except_GaxError {A : Type} (body : result A) (code : StatusCode)
    (translated : exn) : result A :=
  match body with
  | Raise (GaxError cause) =>
      if decide (exc_to_code cause = Some code) then Raise translated
      else Raise (GaxError cause)
  | r => r
  end.

(** [page_iter.page_token or None] *)
Definition token_or_None (token : string) : option string :=
  if decide (token = "") then None else Some token.

Definition page_token_or_INITIAL_PAGE (page_token : option string) : Gax.PageToken :=
  match page_token with
  | None => Gax.INITIAL_PAGE
  | Some t => Gax.Token t
  end.

Section Translation.
Context `{!Helpers}.

Definition _mon_resource_pb_to_mapping (resource_pb : MonitoredResource.t)
  : gmap string value :=
  let mapping : gmap string value :=
    {[ "type" := VStr (MonitoredResource.type resource_pb) ]} in
  if decide (MonitoredResource.labels resource_pb = ∅) then mapping
  else <["labels" := VDict (VStr <$> MonitoredResource.labels resource_pb)]> mapping.

(** [_value_pb_to_value], with the comprehension of [_struct_pb_to_mapping]
    in its [struct_value] branch. *)
Fixpoint _value_pb_to_value (value_pb : Value) : result value :=
  let kind := WhichOneof value_pb in
  match kind with
  | None => Ok VNone
  | Some kind =>
      if decide (kind = "string_value") then Ok (VStr (string_value value_pb))
      else if decide (kind = "bool_value") then Ok (VBool (bool_value value_pb))
      else if decide (kind = "number_value") then
        Ok (number_as_value (number_value value_pb))
      else if decide (kind = "list_value") then
        match value_pb with
        | ListValue values => l ← mapM _value_pb_to_value values; Ok (VList l)
        | _ => Ok (VList [])
        end
      else if decide (kind = "struct_value") then
        match value_pb with
        | StructValue fields =>
            d ← map_sequence (_value_pb_to_value <$> fields); Ok (VDict d)
        | _ => Ok (VDict ∅)
        end
      else Raise (ValueError ("Value protobuf had unknown kind: " +:+ kind))
  end.

Definition _struct_pb_to_mapping (struct_pb : gmap string Value)
  : result (gmap string value) :=
  map_sequence (_value_pb_to_value <$> struct_pb).

(** The dict literals of the [httpRequest] and [operation] branches of
    [_log_entry_pb_to_mapping]. *)
Definition http_request_mapping (request : HttpRequest.t) : gmap string value :=
  <["requestMethod" := VStr (HttpRequest.request_method request)]>
  (<["requestUrl" := VStr (HttpRequest.request_url request)]>
  (<["status" := VInt (HttpRequest.status request)]>
  (<["referer" := VStr (HttpRequest.referer request)]>
  (<["userAgent" := VStr (HttpRequest.user_agent request)]>
  (<["cacheHit" := as_value (HttpRequest.cache_hit request)]>
  (<["requestSize" := VInt (HttpRequest.request_size request)]>
  (<["responseSize" := VInt (HttpRequest.response_size request)]>
  (<["remoteIp" := VStr (HttpRequest.remote_ip request)]> ∅)))))))).

Definition operation_mapping (operation : LogEntryOperation.t) : gmap string value :=
  <["producer" := VStr (LogEntryOperation.producer operation)]>
  (<["id" := VStr (LogEntryOperation.id operation)]>
  (<["first" := as_value (LogEntryOperation.first operation)]>
  (<["last" := as_value (LogEntryOperation.last operation)]> ∅))).

Definition _log_entry_pb_to_mapping (entry_pb : LogEntry.t)
  : result (gmap string value) :=
  severity ← LogSeverity.Name (LogEntry.severity entry_pb);
  timestamp ← _pb_timestamp_to_rfc3339 (LogEntry.timestamp entry_pb);
  let mapping : gmap string value :=
    <["logName" := VStr (LogEntry.log_name entry_pb)]>
    (<["resource" := VDict (_mon_resource_pb_to_mapping (LogEntry.resource entry_pb))]>
    (<["severity" := VStr severity]>
    (<["insertId" := VStr (LogEntry.insert_id entry_pb)]>
    (<["timestamp" := VStr timestamp]>
    (<["labels" := VDict (VStr <$> LogEntry.labels entry_pb)]> ∅))))) in
  let mapping :=
    if LogEntry.HasField entry_pb "text_payload"
    then <["textPayload" := VStr (LogEntry.text_payload entry_pb)]> mapping
    else mapping in
  mapping ←
    (if LogEntry.HasField entry_pb "json_payload"
     then json ← _struct_pb_to_mapping (LogEntry.json_payload entry_pb);
          Ok (<["jsonPayload" := VDict json]> mapping)
     else Ok mapping);
  let mapping :=
    if LogEntry.HasField entry_pb "proto_payload"
    then <["protoPayload" := VMessage (LogEntry.proto_payload entry_pb)]> mapping
    else mapping in
  let mapping :=
    if message_truthy (LogEntry.http_request entry_pb) then
      let request := LogEntry.http_request entry_pb in
      <["httpRequest" := VDict (http_request_mapping request)]> mapping
    else mapping in
  let mapping :=
    if message_truthy (LogEntry.operation entry_pb) then
      let operation := LogEntry.operation entry_pb in
      <["operation" := VDict (operation_mapping operation)]> mapping
    else mapping in
  Ok mapping.

Definition optional_request_keys : list (string * string) :=
  [("requestMethod", "request_method"); ("requestUrl", "request_url");
   ("status", "status"); ("referer", "referer"); ("userAgent", "user_agent");
   ("cacheHit", "cache_hit"); ("requestSize", "request_size");
   ("responseSize", "response_size"); ("remoteIp", "remote_ip")].

Definition _http_request_mapping_to_pb (info : value) (request : HttpRequest.t)
  : result HttpRequest.t :=
  for_each (λ request kp,
      present ← contains info kp.1;
      if (present : bool) then
        v ← getitem info kp.1; HttpRequest.setattr kp.2 v request
      else Ok request)
    request optional_request_keys.

Definition _log_operation_mapping_to_pb (info : value)
    (operation : LogEntryOperation.t) : result LogEntryOperation.t :=
  v ← getitem info "producer";
  s ← check_string v;
  let operation := LogEntryOperation.set_producer s operation in
  v ← getitem info "id";
  s ← check_string v;
  let operation := LogEntryOperation.set_id s operation in
  operation ←
    (present ← contains info "first";
     if (present : bool) then
       v ← getitem info "first"; b ← check_bool v;
       Ok (LogEntryOperation.set_first b operation)
     else Ok operation);
  present ← contains info "last";
  if (present : bool) then
    v ← getitem info "last"; b ← check_bool v;
    Ok (LogEntryOperation.set_last b operation)
  else Ok operation.

Definition optional_scalar_keys : list (string * string) :=
  [("logName", "log_name"); ("insertId", "insert_id");
   ("textPayload", "text_payload")].

(** The blocks of [_log_entry_mapping_to_pb], in the order it runs them:
    each looks up its key in the mapping and, when it is there, writes the
    entry. *)
Definition encode_scalars (mapping : gmap string value) (entry_pb : LogEntry.t)
  : result LogEntry.t :=
  for_each (λ entry_pb kp,
      match mapping !! kp.1 with
      | Some v => LogEntry.setattr kp.2 v entry_pb
      | None => Ok entry_pb
      end)
    entry_pb optional_scalar_keys.

Definition encode_resource (mapping : gmap string value) (entry_pb : LogEntry.t)
  : result LogEntry.t :=
  match mapping !! "resource" with
  | Some resource =>
      v ← getitem resource "type";
      s ← check_string v;
      Ok (LogEntry.set_resource
            (MonitoredResource.set_type s (LogEntry.resource entry_pb)) entry_pb)
  | None => Ok entry_pb
  end.

Definition encode_severity (mapping : gmap string value) (entry_pb : LogEntry.t)
  : result LogEntry.t :=
  match mapping !! "severity" with
  | Some severity =>
      severity ← match severity with
                 | VStr name => code ← LogSeverity.Value name; Ok (VInt code)
                 | _ => Ok severity
                 end;
      LogEntry.setattr "severity" severity entry_pb
  | None => Ok entry_pb
  end.

Definition encode_timestamp (mapping : gmap string value) (entry_pb : LogEntry.t)
  : result LogEntry.t :=
  match mapping !! "timestamp" with
  | Some v =>
      timestamp ← _datetime_to_pb_timestamp v;
      Ok (LogEntry.set_timestamp timestamp entry_pb)
  | None => Ok entry_pb
  end.

Definition encode_labels (mapping : gmap string value) (entry_pb : LogEntry.t)
  : result LogEntry.t :=
  match mapping !! "labels" with
  | Some labels =>
      kvs ← items labels;
      for_each (λ entry_pb kv,
          s ← check_string kv.2;
          Ok (LogEntry.set_labels (<[kv.1 := s]> (LogEntry.labels entry_pb)) entry_pb))
        entry_pb kvs
  | None => Ok entry_pb
  end.

Definition encode_json_payload (mapping : gmap string value) (entry_pb : LogEntry.t)
  : result LogEntry.t :=
  match mapping !! "jsonPayload" with
  | Some json =>
      kvs ← items json;
      for_each (λ entry_pb kv,
          struct_pb ← Struct_setitem kv.1 kv.2 (LogEntry.json_payload entry_pb);
          Ok (LogEntry.set_payload (LogEntry.JsonPayload struct_pb) entry_pb))
        entry_pb kvs
  | None => Ok entry_pb
  end.

Definition encode_proto_payload (mapping : gmap string value) (entry_pb : LogEntry.t)
  : result LogEntry.t :=
  match mapping !! "protoPayload" with
  | Some v =>
      written ← Parse_json_dumps v (LogEntry.proto_payload entry_pb);
      match written with
      | Some any => Ok (LogEntry.set_payload (LogEntry.ProtoPayload any) entry_pb)
      | None => Ok entry_pb
      end
  | None => Ok entry_pb
  end.

Definition encode_http_request (mapping : gmap string value) (entry_pb : LogEntry.t)
  : result LogEntry.t :=
  match mapping !! "httpRequest" with
  | Some info =>
      request ← _http_request_mapping_to_pb info (LogEntry.http_request entry_pb);
      Ok (LogEntry.set_http_request request entry_pb)
  | None => Ok entry_pb
  end.

Definition encode_operation (mapping : gmap string value) (entry_pb : LogEntry.t)
  : result LogEntry.t :=
  match mapping !! "operation" with
  | Some info =>
      operation ← _log_operation_mapping_to_pb info (LogEntry.operation entry_pb);
      Ok (LogEntry.set_operation operation entry_pb)
  | None => Ok entry_pb
  end.

Definition _log_entry_mapping_to_pb (mapping : gmap string value)
  : result LogEntry.t :=
  let entry_pb := LogEntry.default in
  entry_pb ← encode_scalars mapping entry_pb;
  entry_pb ← encode_resource mapping entry_pb;
  entry_pb ← encode_severity mapping entry_pb;
  entry_pb ← encode_timestamp mapping entry_pb;
  entry_pb ← encode_labels mapping entry_pb;
  entry_pb ← encode_json_payload mapping entry_pb;
  entry_pb ← encode_proto_payload mapping entry_pb;
  entry_pb ← encode_http_request mapping entry_pb;
  entry_pb ← encode_operation mapping entry_pb;
  Ok entry_pb.

End Translation.

Definition _log_sink_pb_to_mapping (sink_pb : LogSink.t) : gmap string value :=
  <["name" := VStr (LogSink.name sink_pb)]>
  (<["destination" := VStr (LogSink.destination sink_pb)]>
  (<["filter" := VStr (LogSink.filter sink_pb)]> ∅)).

Definition _log_metric_pb_to_mapping (metric_pb : LogMetric.t) : gmap string value :=
  <["name" := VStr (LogMetric.name metric_pb)]>
  (<["description" := VStr (LogMetric.description metric_pb)]>
  (<["filter" := VStr (LogMetric.filter metric_pb)]> ∅)).

(** ** class _LoggingAPI *)
Section LoggingAPI.
Context `{!Helpers} (_gax_api : Gax.LoggingServiceV2Api).

Definition list_entries (projects : list string) (filter_ order_by : string)
    (page_size : Z) (page_token : option string)
  : result (list (gmap string value) * option string) :=
  let page_token := page_token_or_INITIAL_PAGE page_token in
  let options := {| Gax.page_token := page_token |} in
  page_iter ← Gax.list_log_entries _gax_api projects filter_ order_by page_size options;
  entries ← mapM _log_entry_pb_to_mapping page_iter.1;
  let token := token_or_None page_iter.2 in
  Ok (entries, token).

Definition write_entries (entries : list (gmap string value))
    (logger_name : option string) (resource labels : option value) : result unit :=
  let options := None in
  let partial_success := false in
  entry_pbs ← mapM _log_entry_mapping_to_pb entries;
  Gax.write_log_entries _gax_api entry_pbs logger_name resource labels
    partial_success options.

Definition logger_delete (project logger_name : string) : result unit :=
  let options := None in
  let path := "projects/" +:+ project +:+ "/logs/" +:+ logger_name in
  except_GaxError (Gax.delete_log _gax_api path options) NOT_FOUND (NotFound path).

End LoggingAPI.

(** ** class _SinksAPI *)
Section SinksAPI.
Context (_gax_api : Gax.ConfigServiceV2Api).

Definition list_sinks (project : string) (page_size : Z) (page_token : option string)
  : result (list (gmap string value) * option string) :=
  let page_token := page_token_or_INITIAL_PAGE page_token in
  let options := {| Gax.page_token := page_token |} in
  let path := "projects/" +:+ project in
  page_iter ← Gax.list_sinks _gax_api path page_size options;
  let sinks := _log_sink_pb_to_mapping <$> (page_iter.1 : list LogSink.t) in
  let token := token_or_None page_iter.2 in
  Ok (sinks, token).

Definition sink_create (project sink_name filter_ destination : string)
  : result unit :=
  let options := None in
  let parent := "projects/" +:+ project in
  let sink_pb := LogSink.mk sink_name destination filter_ in
  _ ← except_GaxError (Gax.create_sink _gax_api parent sink_pb options)
        FAILED_PRECONDITION
        (Conflict ("projects/" +:+ project +:+ "/sinks/" +:+ sink_name));
  Ok ().

Definition sink_get (project sink_name : string) : result (gmap string value) :=
  let options := None in
  let path := "projects/" +:+ project +:+ "/sinks/" +:+ sink_name in
  sink_pb ← except_GaxError (Gax.get_sink _gax_api path options) NOT_FOUND (NotFound path);
  Ok (_log_sink_pb_to_mapping sink_pb).

Definition sink_update (project sink_name filter_ destination : string)
  : result (gmap string value) :=
  let options := None in
  let path := "projects/" +:+ project +:+ "/sinks/" +:+ sink_name in
  let sink_pb := LogSink.mk path destination filter_ in
  _ ← except_GaxError (Gax.update_sink _gax_api path sink_pb options) NOT_FOUND
        (NotFound path);
  Ok (_log_sink_pb_to_mapping sink_pb).

Definition sink_delete (project sink_name : string) : result unit :=
  let options := None in
  let path := "projects/" +:+ project +:+ "/sinks/" +:+ sink_name in
  except_GaxError (Gax.delete_sink _gax_api path options) NOT_FOUND (NotFound path).

End SinksAPI.

(** ** class _MetricsAPI *)
Section MetricsAPI.
Context (_gax_api : Gax.MetricsServiceV2Api).

Definition list_metrics (project : string) (page_size : Z) (page_token : option string)
  : result (list (gmap string value) * option string) :=
  let page_token := page_token_or_INITIAL_PAGE page_token in
  let options := {| Gax.page_token := page_token |} in
  let path := "projects/" +:+ project in
  page_iter ← Gax.list_log_metrics _gax_api path page_size options;
  let metrics := _log_metric_pb_to_mapping <$> (page_iter.1 : list LogMetric.t) in
  let token := token_or_None page_iter.2 in
  Ok (metrics, token).

Definition metric_create (project metric_name filter_ description : string)
  : result unit :=
  let options := None in
  let parent := "projects/" +:+ project in
  let metric_pb := LogMetric.mk metric_name description filter_ in
  _ ← except_GaxError (Gax.create_log_metric _gax_api parent metric_pb options)
        FAILED_PRECONDITION
        (Conflict ("projects/" +:+ project +:+ "/metrics/" +:+ metric_name));
  Ok ().

Definition metric_get (project metric_name : string) : result (gmap string value) :=
  let options := None in
  let path := "projects/" +:+ project +:+ "/metrics/" +:+ metric_name in
  metric_pb ← except_GaxError (Gax.get_log_metric _gax_api path options) NOT_FOUND
                (NotFound path);
  Ok (_log_metric_pb_to_mapping metric_pb).

Definition metric_update (project metric_name filter_ description : string)
  : result (gmap string value) :=
  let options := None in
  let path := "projects/" +:+ project +:+ "/metrics/" +:+ metric_name in
  let metric_pb := LogMetric.mk path description filter_ in
  _ ← except_GaxError (Gax.update_log_metric _gax_api path metric_pb options) NOT_FOUND
        (NotFound path);
  Ok (_log_metric_pb_to_mapping metric_pb).

Definition metric_delete (project metric_name : string) : result unit :=
  let options := None in
  let path := "projects/" +:+ project +:+ "/metrics/" +:+ metric_name in
  except_GaxError (Gax.delete_log_metric _gax_api path options) NOT_FOUND (NotFound path).

End MetricsAPI.
End Logging.

(** * Instances for the examples

    The theorems below hold for every key type, connection, API object and
    set of helpers.  Their examples use these. *)

Module Examples.
Import Protobuf.

(** A key as the datastore has it, without ancestors: its dataset, its
    kind and, unless it is partial, its id.  Only a partial key can be
    completed. *)
Record SimpleKey := { sk_dataset_id : string; sk_kind : string; sk_id : option Z }.

#[export] Instance SimpleKey_KeyLike : Datastore.KeyLike SimpleKey SimpleKey Z := {|
  Datastore.dataset_id := sk_dataset_id;
  Datastore.kind := sk_kind;
  Datastore.is_partial k := bool_decide (sk_id k = None);
  Datastore.to_protobuf k := k;
  Datastore.completed_key k new_id :=
    if bool_decide (sk_id k = None)
    then Ok {| sk_dataset_id := sk_dataset_id k; sk_kind := sk_kind k;
               sk_id := Some new_id |}
    else Raise (ValueError "Only a partial key can be completed.");
  Datastore.path k := sk_kind k;
|}.

(** A connection inside a transaction, whose backend assigns the id 1234. *)
Definition assigning_connection
  : Datastore.Connection (Key:=SimpleKey) (KeyPB:=SimpleKey) (Id:=Z) (Txn:=unit) (V:=Z) :=
  {| Datastore.save_entity _ _ _ _ _ := Ok (true, 1234);
     Datastore.transaction _ := Ok (Some ());
     Datastore.add_auto_id_entity _ _ _ := Ok () |}.

(** A partial key, an entity that holds it, the same entity without a key,
    and the entity and the log of calls after [save] on
    [assigning_connection]. *)
Definition person_key : SimpleKey :=
  {| sk_dataset_id := "dataset"; sk_kind := "Person"; sk_id := None |}.

Definition partial_entity : Datastore.Entity (Key:=SimpleKey) (V:=Z) :=
  {| Datastore.fields := {[ "age" := 20 ]};
     Datastore.key := Some person_key;
     Datastore._exclude_from_indexes := {[ "age" ]} |}.

Definition keyless_entity : Datastore.Entity (Key:=SimpleKey) (V:=Z) :=
  {| Datastore.fields := {[ "age" := 20 ]};
     Datastore.key := None;
     Datastore._exclude_from_indexes := {[ "age" ]} |}.

Definition saved_entity : Datastore.Entity (Key:=SimpleKey) (V:=Z) :=
  {| Datastore.fields := {[ "age" := 20 ]};
     Datastore.key := Some {| sk_dataset_id := "dataset"; sk_kind := "Person";
                              sk_id := Some 1234 |};
     Datastore._exclude_from_indexes := {[ "age" ]} |}.

Definition no_calls
  : list (Datastore.call (Key:=SimpleKey) (KeyPB:=SimpleKey) (Txn:=unit) (V:=Z)) :=
  [].

Definition saved_log
  : list (Datastore.call (Key:=SimpleKey) (KeyPB:=SimpleKey) (Txn:=unit) (V:=Z)) :=
  [Datastore.save_entity_call "dataset" person_key {[ "age" := 20 ]} {[ "age" ]};
   Datastore.transaction_call;
   Datastore.add_auto_id_entity_call () partial_entity].

(** [n] in decimal, in [width] digits. *)
Fixpoint digits (width : nat) (n : Z) : string :=
  match width with
  | O => ""
  | S w => digits w (n `div` 10)
           +:+ String (Ascii.ascii_of_nat (48 + Z.to_nat (n `mod` 10))) ""
  end.

(** The helpers of [google.cloud._helpers]: a datetime becomes the seconds
    and nanoseconds of its instant; a timestamp is rendered, to the
    microsecond, as [%Y-%m-%dT%H:%M:%S.%fZ] in the proleptic Gregorian
    calendar (years 1 to 9999, as [datetime] has them). *)
Definition datetime_to_pb_timestamp (v : value) : result Timestamp.t :=
  match v with
  | VDatetime (Datetime us) =>
      Ok {| Timestamp.seconds := us `div` 1000000;
            Timestamp.nanos := us `mod` 1000000 * 1000 |}
  | _ => Raise AttributeError
  end.

Definition pb_timestamp_to_rfc3339 (ts : Timestamp.t) : result string :=
  let q := Timestamp.nanos ts `div` 1000 in
  let r := Timestamp.nanos ts `mod` 1000 in
  let micros :=
    if bool_decide (500 < r ∨ (r = 500 ∧ Z.odd q = true)) then q + 1 else q in
  let total := Timestamp.seconds ts * 1000000 + micros in
  let secs := total `div` 1000000 in
  let days := secs `div` 86400 in
  let z := days + 719468 in
  let era := z `div` 146097 in
  let doe := z - era * 146097 in
  let yoe := (doe - doe `div` 1460 + doe `div` 36524 - doe `div` 146096) `div` 365 in
  let doy := doe - (365 * yoe + yoe `div` 4 - yoe `div` 100) in
  let mp := (5 * doy + 2) `div` 153 in
  let d := doy - (153 * mp + 2) `div` 5 + 1 in
  let m := if bool_decide (mp < 10) then mp + 3 else mp - 9 in
  let y := yoe + era * 400 + (if bool_decide (m ≤ 2) then 1 else 0) in
  if bool_decide (1 ≤ y ≤ 9999) then
    Ok (digits 4 y +:+ "-" +:+ digits 2 m +:+ "-" +:+ digits 2 d +:+ "T"
        +:+ digits 2 ((secs `mod` 86400) `div` 3600) +:+ ":"
        +:+ digits 2 ((secs `mod` 3600) `div` 60) +:+ ":"
        +:+ digits 2 (secs `mod` 60) +:+ "."
        +:+ digits 6 (total `mod` 1000000) +:+ "Z")
  else Raise OverflowError.

(** The parser of the examples knows no message type: it leaves the
    message alone on an empty payload, as [Parse] does on [{}], and refuses
    every other [protoPayload]. *)
Definition parse_json_dumps (v : value) (message : Any) : result (option Any) :=
  match v with
  | VDict d => if decide (d = ∅) then Ok None else Raise (OtherError "ParseError")
  | _ => Raise (OtherError "ParseError")
  end.

#[export] Instance helpers : Logging.Helpers := {|
  Logging._datetime_to_pb_timestamp := datetime_to_pb_timestamp;
  Logging._pb_timestamp_to_rfc3339 := pb_timestamp_to_rfc3339;
  Logging.Parse_json_dumps := parse_json_dumps;
|}.

(** A sinks API on which the sink to create exists already and the sink to
    get does not, and APIs that accept an update and answer with a message
    of their own. *)
Definition refusing_sinks : Logging.Gax.ConfigServiceV2Api :=
  {| Logging.Gax.list_sinks _ _ _ := Ok ([], "");
     Logging.Gax.create_sink _ _ _ := Raise (GaxError (RpcError FAILED_PRECONDITION));
     Logging.Gax.get_sink _ _ := Raise (GaxError (RpcError NOT_FOUND));
     Logging.Gax.update_sink _ _ _ := Raise (GaxError (RpcError NOT_FOUND));
     Logging.Gax.delete_sink _ _ := Raise (GaxError (RpcError NOT_FOUND)) |}.

Definition accepting_sinks : Logging.Gax.ConfigServiceV2Api :=
  {| Logging.Gax.list_sinks _ _ _ := Ok ([], "");
     Logging.Gax.create_sink _ sink_pb _ := Ok sink_pb;
     Logging.Gax.get_sink _ _ := Ok (LogSink.mk "stored" "" "");
     Logging.Gax.update_sink _ _ _ := Ok (LogSink.mk "stored" "" "");
     Logging.Gax.delete_sink _ _ := Ok () |}.

Definition accepting_metrics : Logging.Gax.MetricsServiceV2Api :=
  {| Logging.Gax.list_log_metrics _ _ _ := Ok ([], "");
     Logging.Gax.create_log_metric _ metric_pb _ := Ok metric_pb;
     Logging.Gax.get_log_metric _ _ := Ok (LogMetric.mk "stored" "" "");
     Logging.Gax.update_log_metric _ _ _ := Ok (LogMetric.mk "stored" "" "");
     Logging.Gax.delete_log_metric _ _ := Ok () |}.

(** A log entry with every supported key, the message it encodes to and
    the mapping that message decodes to. *)
Definition example_request : HttpRequest.t :=
  {| HttpRequest.request_method := "GET";
     HttpRequest.request_url := "https://example.com/";
     HttpRequest.request_size := 256;
     HttpRequest.status := 200;
     HttpRequest.response_size := 1024;
     HttpRequest.user_agent := "curl";
     HttpRequest.remote_ip := "192.0.2.1";
     HttpRequest.referer := "https://example.com/from";
     HttpRequest.cache_hit := PyBool true |}.

Definition example_operation : LogEntryOperation.t :=
  {| LogEntryOperation.id := "op-1"; LogEntryOperation.producer := "service";
     LogEntryOperation.first := PyBool true;
     LogEntryOperation.last := PyBool false |}.

Definition full_mapping : gmap string value :=
  {[ "logName" := VStr "projects/p/logs/app";
     "resource" := VDict {[ "type" := VStr "global" ]};
     "severity" := VStr "WARNING";
     "insertId" := VStr "insert-1";
     "timestamp" := VDatetime (Datetime 1478170800123456);
     "labels" := VDict {[ "zone" := VStr "a"; "env" := VStr "prod" ]};
     "jsonPayload" := VDict {[ "message" := VStr "hello"; "ok" := VBool true;
                               "count" := VInt 3 ]};
     "httpRequest" := VDict (Logging.http_request_mapping example_request);
     "operation" := VDict (Logging.operation_mapping example_operation) ]}.

Definition full_entry_pb : LogEntry.t :=
  {| LogEntry.log_name := "projects/p/logs/app";
     LogEntry.resource := {| MonitoredResource.type := "global";
                             MonitoredResource.labels := ∅ |};
     LogEntry.timestamp := {| Timestamp.seconds := 1478170800;
                              Timestamp.nanos := 123456000 |};
     LogEntry.severity := 400;
     LogEntry.insert_id := "insert-1";
     LogEntry.http_request := example_request;
     LogEntry.labels := {[ "zone" := "a"; "env" := "prod" ]};
     LogEntry.operation := example_operation;
     LogEntry.payload :=
       LogEntry.JsonPayload {[ "message" := StringValue "hello";
                               "ok" := BoolValue true;
                               "count" := NumberValue (IntNumber 3) ]} |}.


(** Mappings that give the severity as a number and as a name, one whose
    operation names no producer, and one whose severity is no name of the
    enum. *)
Definition numeric_severity_mapping : gmap string value :=
  {[ "severity" := VInt 200 ]}.

Definition named_severity_mapping : gmap string value :=
  {[ "severity" := VStr "ERROR" ]}.

Definition producerless_mapping : gmap string value :=
  {[ "logName" := VStr "projects/p/logs/app";
     "operation" := VDict {[ "id" := VStr "op-1" ]} ]}.

Definition unknown_severity_mapping : gmap string value :=
  {[ "severity" := VStr "BOGUS"; "operation" := VDict ∅ ]}.

(** A message with a text payload and nothing else, and its decoding. *)
Definition text_entry_pb : LogEntry.t :=
  LogEntry.set_payload (LogEntry.TextPayload "hello") LogEntry.default.

Definition text_decoded : gmap string value :=
  {[ "logName" := VStr "";
     "resource" := VDict {[ "type" := VStr "" ]};
     "severity" := VStr "DEFAULT";
     "insertId" := VStr "";
     "timestamp" := VStr "1970-01-01T00:00:00.000000Z";
     "labels" := VDict ∅;
     "textPayload" := VStr "hello";
     "httpRequest" := VDict (Logging.http_request_mapping HttpRequest.default);
     "operation" := VDict (Logging.operation_mapping LogEntryOperation.default) ]}.

End Examples.

(** * Further instances

    Instances for the examples of the properties beyond the claims. *)

Module MoreExamples.
Import Protobuf Examples.

(** A connection whose backend is unavailable: [save_entity] raises. *)
Definition unavailable_connection
  : Datastore.Connection (Key:=SimpleKey) (KeyPB:=SimpleKey) (Id:=Z) (Txn:=unit) (V:=Z) :=
  {| Datastore.save_entity _ _ _ _ _ := Raise (OtherError "ServiceUnavailable");
     Datastore.transaction _ := Ok None;
     Datastore.add_auto_id_entity _ _ _ := Ok () |}.

(** A resource with a label, and the same resource with its type only. *)
Definition labelled_resource : gmap string value :=
  {[ "type" := VStr "gce_instance";
     "labels" := VDict {[ "zone" := VStr "us-central1-a" ]} ]}.

Definition bare_resource : gmap string value :=
  {[ "type" := VStr "gce_instance" ]}.

(** A mapping whose [jsonPayload] holds a [None], and the message it
    encodes to. *)
Definition null_payload_mapping : gmap string value :=
  {[ "jsonPayload" := VDict {[ "note" := VNone ]} ]}.

Definition null_payload_pb : LogEntry.t :=
  LogEntry.set_payload (LogEntry.JsonPayload {[ "note" := NullValue ]})
    LogEntry.default.

(** A mapping with a text payload and an empty [protoPayload]: it encodes
    to [text_entry_pb]. *)
Definition text_and_empty_proto_mapping : gmap string value :=
  {[ "textPayload" := VStr "hello"; "protoPayload" := VDict ∅ ]}.




End MoreExamples.

(** * Properties of gcloud/datastore/entity.py *)

Module DatastoreProps.
Import Datastore.

Section Save.
Context {Key KeyPB Id Txn V : Type} `{!KeyLike Key KeyPB Id}.
Implicit Types (self : Entity (Key:=Key) (V:=V)).
Implicit Types (log : list (call (Key:=Key) (KeyPB:=KeyPB) (Txn:=Txn) (V:=V))).
Implicit Types (conn : Connection (Key:=Key) (KeyPB:=KeyPB) (Id:=Id) (Txn:=Txn) (V:=V)).

Ltac unfold_save H :=
  unfold save, _must_key, mbind, M_bind, get_self, raise, lift, invoke,
    set_key, mret, M_ret in H; simpl in H.

Lemma registrations_app log1 log2 :
  registrations (log1 ++ log2) = (registrations log1 + registrations log2)%nat.
Proof. unfold registrations. by rewrite filter_app, length_app. Qed.

(** C3.  An entity without a key cannot be saved: [save] raises [NoKey],
    the log of calls is the one it started from, so neither [save_entity]
    nor any other call reached a connection, and the entity is the same. *)
Theorem save_without_key_raises_NoKey
    (implicit connection : option (Connection (Id:=Id))) self log :
  key self = None →
  save implicit connection (self, log) = (Raise NoKey, (self, log)).
Proof.
  intros Hkey. unfold save, _must_key, mbind, M_bind, get_self, raise. simpl.
  by rewrite Hkey.
Qed.

(** C4.  When [save] completes on an entity whose key is [k], the
    connection answered [save_entity] with some [(assigned, new_id)]; if
    [assigned], the entity's key is [k] completed with [new_id], otherwise
    it is still [k]; the fields and the excluded names are untouched. *)
Theorem save_changes_key_only_on_assignment
    (implicit connection : option (Connection (Id:=Id))) self log k self' log' :
  key self = Some k →
  save implicit connection (self, log) = (Ok (), (self', log')) →
  ∃ conn assigned new_id,
    py_or connection implicit = Some conn ∧
    save_entity conn log (dataset_id k) (to_protobuf k) (fields self)
      (exclude_from_indexes self) = Ok (assigned, new_id) ∧
    (if (assigned : bool)
     then ∃ k', completed_key k new_id = Ok k' ∧ key self' = Some k'
     else key self' = Some k) ∧
    fields self' = fields self ∧
    _exclude_from_indexes self' = _exclude_from_indexes self.
Proof.
  intros Hkey Hrun. unfold_save Hrun. rewrite Hkey in Hrun.
  destruct (py_or connection implicit) as [conn|]; simpl in Hrun; [|done].
  exists conn.
  destruct (save_entity conn log _ _ _ _) as [[assigned new_id]|];
    simpl in Hrun; [|done].
  exists assigned, new_id.
  repeat (case_match; simplify_eq/=); eauto 10.
Qed.

(** C6.  Once [save_entity] has answered and [transaction()] has returned
    [txn], [save] registers the entity with [add_auto_id_entity] exactly
    once when [txn] is a transaction and the key is partial, and not at all
    when there is no transaction or the key is complete; the log shows the
    calls made, whatever [save] then returns or raises. *)
Theorem save_registers_partial_key_once
    (implicit connection : option (Connection (Id:=Id))) conn self log k
    assigned new_id (txn : option Txn) r self' log' :
  key self = Some k →
  py_or connection implicit = Some conn →
  save_entity conn log (dataset_id k) (to_protobuf k) (fields self)
    (exclude_from_indexes self) = Ok (assigned, new_id) →
  transaction conn
    (log ++ [save_entity_call (dataset_id k) (to_protobuf k) (fields self)
               (exclude_from_indexes self)]) = Ok txn →
  save implicit connection (self, log) = (r, (self', log')) →
  log' = log
         ++ [save_entity_call (dataset_id k) (to_protobuf k) (fields self)
               (exclude_from_indexes self); transaction_call]
         ++ match txn with
            | Some t => if is_partial k then [add_auto_id_entity_call t self] else []
            | None => []
            end
  ∧ registrations log' =
    (registrations log
     + match txn with
       | Some _ => if is_partial k then 1 else 0
       | None => 0
       end)%nat.
Proof.
  intros Hkey Hconn Hsave Htxn Hrun. unfold_save Hrun.
  rewrite Hkey, Hconn in Hrun. simpl in Hrun. rewrite Hsave in Hrun.
  simpl in Hrun. rewrite Htxn in Hrun. simpl in Hrun.
  assert (log' = log
         ++ [save_entity_call (dataset_id k) (to_protobuf k) (fields self)
               (exclude_from_indexes self); transaction_call]
         ++ match txn with
            | Some t => if is_partial k then [add_auto_id_entity_call t self] else []
            | None => []
            end) as ->.
  { repeat (case_match; simplify_eq/=); by rewrite <-?app_assoc. }
  split; [done|]. rewrite !registrations_app.
  repeat case_match; unfold registrations; simpl; lia.
Qed.

End Save.

(** ** Examples *)
Import Examples.

(** C3 on the entity without a key. *)
Lemma save_without_key_raises_NoKey_witness :
  key keyless_entity = None
  ∧ save None (Some assigning_connection) (keyless_entity, [])
    = (Raise NoKey, (keyless_entity, [])).
Proof.
  split; [reflexivity|].
  apply (save_without_key_raises_NoKey None (Some assigning_connection)
           keyless_entity []).
  reflexivity.
Defined.

(** C4 on a partial key that the backend completes with the id 1234. *)
Lemma save_changes_key_only_on_assignment_witness :
  ∃ conn assigned new_id,
    py_or (Some assigning_connection) None = Some conn
    ∧ save_entity conn [] (dataset_id person_key) (to_protobuf person_key)
        (fields partial_entity) (exclude_from_indexes partial_entity)
      = Ok (assigned, new_id)
    ∧ (if (assigned : bool)
       then ∃ k', completed_key person_key new_id = Ok k'
                  ∧ key saved_entity = Some k'
       else key saved_entity = Some person_key)
    ∧ fields saved_entity = fields partial_entity
    ∧ _exclude_from_indexes saved_entity = _exclude_from_indexes partial_entity.
Proof.
  apply (save_changes_key_only_on_assignment None (Some assigning_connection)
           partial_entity [] person_key saved_entity saved_log).
  - reflexivity.
  - vm_compute. reflexivity.
Defined.

(** C6 on a partial key saved inside a transaction. *)
Lemma save_registers_partial_key_once_witness :
  saved_log
  = no_calls ++ [save_entity_call (dataset_id person_key) (to_protobuf person_key)
             (fields partial_entity) (exclude_from_indexes partial_entity);
           transaction_call]
       ++ (if is_partial person_key
           then [add_auto_id_entity_call () partial_entity] else [])
  ∧ registrations saved_log
    = (registrations no_calls + (if is_partial person_key then 1 else 0))%nat.
Proof.
  apply (save_registers_partial_key_once None (Some assigning_connection)
           assigning_connection partial_entity no_calls person_key true 1234
           (Some ())
           (Ok ()) saved_entity saved_log).
  - reflexivity.
  - reflexivity.
  - reflexivity.
  - reflexivity.
  - vm_compute. reflexivity.
Defined.

End DatastoreProps.

(** * Properties of google/cloud/logging/_gax.py *)

Module LoggingProps.
Import Protobuf Logging.

(** ** The API wrappers *)

Lemma except_GaxError_translates {A : Type} (body : result A) code translated cause :
  body = Raise (GaxError cause) →
  exc_to_code cause = Some code →
  except_GaxError body code translated = Raise translated.
Proof. intros -> Hcode. unfold except_GaxError. by rewrite decide_True. Qed.

Lemma except_GaxError_reraises {A : Type} (body : result A) code translated e :
  body = Raise e →
  (∀ cause, e = GaxError cause → exc_to_code cause ≠ Some code) →
  except_GaxError body code translated = Raise e.
Proof.
  intros -> Hother. unfold except_GaxError. destruct e; try done.
  rewrite decide_False; [done|]. by apply Hother.
Qed.

Lemma except_GaxError_returns {A : Type} (body : result A) code translated a :
  body = Ok a → except_GaxError body code translated = Ok a.
Proof. by intros ->. Qed.

(** C8.  [sink_create] turns a [GaxError] whose cause carries
    FAILED_PRECONDITION into [Conflict] on [projects/{project}/sinks/{name}],
    [sink_get] turns one whose cause carries NOT_FOUND into [NotFound] on
    the same path, and each re-raises any other exception of the transport
    as it is. *)
Theorem sink_create_get_translate_status (api : Gax.ConfigServiceV2Api)
    (project sink_name filter_ destination : string) :
  let path := "projects/" +:+ project +:+ "/sinks/" +:+ sink_name in
  let created :=
    Gax.create_sink api ("projects/" +:+ project)
      (LogSink.mk sink_name destination filter_) None in
  let got := Gax.get_sink api path None in
  (∀ cause, created = Raise (GaxError cause) →
            exc_to_code cause = Some FAILED_PRECONDITION →
            sink_create api project sink_name filter_ destination
            = Raise (Conflict path))
  ∧ (∀ cause, got = Raise (GaxError cause) →
              exc_to_code cause = Some NOT_FOUND →
              sink_get api project sink_name = Raise (NotFound path))
  ∧ (∀ e, created = Raise e →
          (∀ cause, e = GaxError cause →
                    exc_to_code cause ≠ Some FAILED_PRECONDITION) →
          sink_create api project sink_name filter_ destination = Raise e)
  ∧ (∀ e, got = Raise e →
          (∀ cause, e = GaxError cause → exc_to_code cause ≠ Some NOT_FOUND) →
          sink_get api project sink_name = Raise e).
Proof.
  intros path created got. unfold sink_create, sink_get. repeat split.
  - intros cause Hraise Hcode.
    by rewrite (except_GaxError_translates _ _ _ cause Hraise Hcode).
  - intros cause Hraise Hcode.
    by rewrite (except_GaxError_translates _ _ _ cause Hraise Hcode).
  - intros e Hraise Hother.
    by rewrite (except_GaxError_reraises _ _ _ e Hraise Hother).
  - intros e Hraise Hother.
    by rewrite (except_GaxError_reraises _ _ _ e Hraise Hother).
Qed.

(** C10.  After a transport call that returns, [sink_update] returns the
    mapping of the request it built: the full path as [name], the filter
    and the destination; [metric_update] likewise with the description.
    The message the transport returned is not consulted. *)
Theorem update_returns_request_mapping (sinks : Gax.ConfigServiceV2Api)
    (metrics : Gax.MetricsServiceV2Api)
    (project name filter_ destination description : string) :
  let sink_path := "projects/" +:+ project +:+ "/sinks/" +:+ name in
  let metric_path := "projects/" +:+ project +:+ "/metrics/" +:+ name in
  (∀ reply,
     Gax.update_sink sinks sink_path
       (LogSink.mk sink_path destination filter_) None = Ok reply →
     sink_update sinks project name filter_ destination
     = Ok {[ "name" := VStr sink_path; "filter" := VStr filter_;
             "destination" := VStr destination ]})
  ∧ (∀ reply,
       Gax.update_log_metric metrics metric_path
         (LogMetric.mk metric_path description filter_) None = Ok reply →
       metric_update metrics project name filter_ description
       = Ok {[ "name" := VStr metric_path; "filter" := VStr filter_;
               "description" := VStr description ]}).
Proof.
  intros sink_path metric_path. split; intros reply Hreply.
  - unfold sink_update. fold sink_path. rewrite Hreply. simpl.
    unfold _log_sink_pb_to_mapping. simpl. f_equal.
  - unfold metric_update. fold metric_path. rewrite Hreply. simpl.
    unfold _log_metric_pb_to_mapping. simpl. f_equal.
Qed.

(** ** Decoding structured values *)

(** C5.  A [Value] whose [kind] oneof holds a member other than
    [string_value], [bool_value], [number_value], [list_value] and
    [struct_value] does not decode: [_value_pb_to_value] raises
    [ValueError], naming the member. *)
Theorem value_pb_with_other_kind_raises (value_pb : Value) (kind : string) :
  WhichOneof value_pb = Some kind →
  kind ∉ ["string_value"; "bool_value"; "number_value"; "list_value";
          "struct_value"] →
  _value_pb_to_value value_pb
  = Raise (ValueError ("Value protobuf had unknown kind: " +:+ kind)).
Proof.
  intros Hkind Hother.
  destruct value_pb; simplify_eq/=; try done; exfalso; apply Hother;
    set_solver.
Qed.

(** ** Encoding a mapping, block by block *)

Lemma bind_Ok {A B : Type} (r : result A) (f : A → result B) (b : B) :
  r ≫= f = Ok b ↔ ∃ a, r = Ok a ∧ f a = Ok b.
Proof.
  destruct r as [a|e]; simpl; split; try done; eauto.
  - by intros (a' & [= <-] & Hf).
  - by intros (a' & [=] & _).
Qed.

Ltac inv_bind H :=
  repeat match type of H with
         | _ ≫= _ = Ok _ =>
             let a := fresh "a" in
             let Ha := fresh "Ha" in
             apply bind_Ok in H as (a & Ha & H)
         end.

Lemma check_string_Ok v s : check_string v = Ok s ↔ v = VStr s.
Proof. destruct v; simpl; split; congruence. Qed.

Lemma getitem_Ok v k x :
  getitem v k = Ok x ↔ ∃ d, v = VDict d ∧ d !! k = Some x.
Proof.
  destruct v; simpl; split; try done; try by intros (? & [=] & _).
  - destruct (d !! k) eqn:Hk; intros [= <-]. eauto.
  - intros (d' & [= <-] & ->). done.
Qed.

Lemma items_Ok v kvs : items v = Ok kvs ↔ ∃ d, v = VDict d ∧ kvs = map_to_list d.
Proof.
  destruct v; simpl; split; try done; try by intros (? & [=] & _).
  - intros [= <-]. eauto.
  - by intros (d' & [= <-] & ->).
Qed.




Section Translation.
Context `{!Helpers}.
Implicit Types (mapping : gmap string value) (pb : LogEntry.t).

Lemma encode_scalars_Ok mapping pb pb' :
  encode_scalars mapping pb = Ok pb' →
  ∃ n i p,
    pb' = LogEntry.set_payload p (LogEntry.set_insert_id i (LogEntry.set_log_name n pb))
    ∧ match mapping !! "logName" with
      | Some v => v = VStr n
      | None => n = LogEntry.log_name pb
      end
    ∧ match mapping !! "insertId" with
      | Some v => v = VStr i
      | None => i = LogEntry.insert_id pb
      end
    ∧ match mapping !! "textPayload" with
      | Some v => ∃ s, v = VStr s ∧ p = LogEntry.TextPayload s
      | None => p = LogEntry.payload pb
      end.
Proof.
  unfold encode_scalars, optional_scalar_keys. simpl. intros Henc.
  exists (LogEntry.log_name pb'), (LogEntry.insert_id pb'), (LogEntry.payload pb').
  inv_bind Henc. injection Henc as <-.
  destruct (mapping !! "logName") as [v1|];
    destruct (mapping !! "insertId") as [v2|];
    destruct (mapping !! "textPayload") as [v3|];
    repeat match goal with
      | H : LogEntry.setattr _ _ _ = Ok _ |- _ =>
          unfold LogEntry.setattr in H; simpl in H; inv_bind H;
          injection H as <-
      | H : check_string _ = Ok _ |- _ => apply check_string_Ok in H as ->
      | H : Ok _ = Ok _ |- _ => injection H as <-
      end;
    destruct pb; repeat split; try reflexivity; eauto.
Qed.

Lemma encode_resource_Ok mapping pb pb' :
  encode_resource mapping pb = Ok pb' →
  ∃ r, pb' = LogEntry.set_resource r pb
    ∧ match mapping !! "resource" with
      | Some v => ∃ d s, v = VDict d ∧ d !! "type" = Some (VStr s)
                         ∧ r = MonitoredResource.set_type s (LogEntry.resource pb)
      | None => r = LogEntry.resource pb
      end.
Proof.
  unfold encode_resource. intros Henc. exists (LogEntry.resource pb').
  destruct (mapping !! "resource") as [v|].
  - inv_bind Henc. injection Henc as <-.
    apply getitem_Ok in Ha as (d & -> & Hd). apply check_string_Ok in Ha0 as ->.
    split; [by destruct pb|]. eauto.
  - injection Henc as <-. by destruct pb.
Qed.

Lemma check_int_VInt bits n c : check_int bits (VInt n) = Ok c → c = n.
Proof. simpl. case_bool_decide; congruence. Qed.

Lemma encode_severity_Ok mapping pb pb' :
  encode_severity mapping pb = Ok pb' →
  ∃ c, pb' = LogEntry.set_severity c pb
    ∧ match mapping !! "severity" with
      | Some (VStr name) => LogSeverity.Value name = Ok c
      | Some v => check_int 32 v = Ok c
      | None => c = LogEntry.severity pb
      end.
Proof.
  unfold encode_severity. intros Henc. exists (LogEntry.severity pb').
  destruct (mapping !! "severity") as [v|].
  - inv_bind Henc. unfold LogEntry.setattr in Henc. simpl in Henc.
    inv_bind Henc. injection Henc as <-. split; [by destruct pb|].
    destruct v; simpl in Ha; try (injection Ha as <-; by simpl).
    inv_bind Ha. injection Ha as <-. apply check_int_VInt in Ha0 as ->.
    by simpl.
  - injection Henc as <-. by destruct pb.
Qed.

Lemma encode_timestamp_Ok mapping pb pb' :
  encode_timestamp mapping pb = Ok pb' →
  ∃ t, pb' = LogEntry.set_timestamp t pb
    ∧ match mapping !! "timestamp" with
      | Some v => _datetime_to_pb_timestamp v = Ok t
      | None => t = LogEntry.timestamp pb
      end.
Proof.
  unfold encode_timestamp. intros Henc. exists (LogEntry.timestamp pb').
  destruct (mapping !! "timestamp") as [v|].
  - inv_bind Henc. injection Henc as <-. split; [by destruct pb|]. done.
  - injection Henc as <-. by destruct pb.
Qed.

Lemma for_each_labels_Ok (kvs : list (string * value)) pb pb' :
  for_each (λ entry_pb kv,
      s ← check_string kv.2;
      Ok (LogEntry.set_labels (<[kv.1 := s]> (LogEntry.labels entry_pb)) entry_pb))
    pb kvs = Ok pb' →
  ∃ strs : list (string * string),
    kvs = prod_map id VStr <$> strs
    ∧ pb' = LogEntry.set_labels (list_to_map (reverse strs) ∪ LogEntry.labels pb) pb.
Proof.
  revert pb. induction kvs as [|[k v] kvs IH]; intros pb Hloop; simpl in Hloop.
  - injection Hloop as <-. exists []. split; [done|].
    rewrite reverse_nil. simpl. rewrite (left_id_L ∅ (∪)). by destruct pb.
  - inv_bind Hloop. inv_bind Ha. injection Ha as <-.
    apply check_string_Ok in Ha0. simpl in Ha0. subst v.
    apply IH in Hloop as (strs & -> & ->). exists ((k, a0) :: strs).
    split; [done|]. rewrite reverse_cons, list_to_map_app. simpl.
    rewrite <-(assoc_L (∪)), <-insert_union_l, (left_id_L ∅ (∪)).
    by destruct pb.
Qed.

Lemma list_to_map_reverse {A : Type} (l : list (string * A)) :
  NoDup l.*1 → (list_to_map (reverse l) : gmap string A) = list_to_map l.
Proof.
  intros Hl. apply list_to_map_proper; [|by rewrite reverse_Permutation].
  by rewrite fmap_reverse, reverse_Permutation.
Qed.

Lemma encode_labels_Ok mapping pb pb' :
  encode_labels mapping pb = Ok pb' →
  ∃ l, pb' = LogEntry.set_labels l pb
    ∧ match mapping !! "labels" with
      | Some v => ∃ l0 : gmap string string,
                    v = VDict (VStr <$> l0) ∧ l = l0 ∪ LogEntry.labels pb
      | None => l = LogEntry.labels pb
      end.
Proof.
  unfold encode_labels. intros Henc. exists (LogEntry.labels pb').
  destruct (mapping !! "labels") as [v|].
  - inv_bind Henc. apply items_Ok in Ha as (d & -> & ->).
    apply for_each_labels_Ok in Henc as (strs & Hstrs & ->).
    split; [by destruct pb|]. exists (list_to_map (reverse strs)).
    split; [|by destruct pb]. f_equal.
    assert (NoDup strs.*1) as Hnodup.
    { replace (strs.*1) with ((map_to_list d).*1); [apply NoDup_fst_map_to_list|].
      rewrite Hstrs, <-list_fmap_compose. by apply list_fmap_ext; intros ? []. }
    rewrite list_to_map_reverse by done.
    rewrite <-(list_to_map_to_list d), Hstrs. by rewrite list_to_map_fmap.
  - injection Henc as <-. by destruct pb.
Qed.

Lemma Struct_setitem_Ok k v (struct_pb struct_pb' : gmap string Value) :
  Struct_setitem k v struct_pb = Ok struct_pb' →
  ∃ value_pb, _SetStructValue v = Ok value_pb ∧ struct_pb' = <[k := value_pb]> struct_pb.
Proof.
  unfold Struct_setitem. intros Hset. inv_bind Hset. injection Hset as <-. eauto.
Qed.

Lemma for_each_json_Ok (kvs : list (string * value)) pb pb' :
  for_each (λ entry_pb kv,
      struct_pb ← Struct_setitem kv.1 kv.2 (LogEntry.json_payload entry_pb);
      Ok (LogEntry.set_payload (LogEntry.JsonPayload struct_pb) entry_pb))
    pb kvs = Ok pb' →
  ∃ pbs : list (string * Value),
    prod_map id _SetStructValue <$> kvs = prod_map id Ok <$> pbs
    ∧ pb' = match kvs with
            | [] => pb
            | _ => LogEntry.set_payload
                     (LogEntry.JsonPayload
                        (list_to_map (reverse pbs) ∪ LogEntry.json_payload pb)) pb
            end.
Proof.
  revert pb. induction kvs as [|[k v] kvs IH]; intros pb Hloop; simpl in Hloop.
  - injection Hloop as <-. by exists [].
  - inv_bind Hloop. inv_bind Ha. injection Ha as <-.
    apply Struct_setitem_Ok in Ha0 as (value_pb & Hv & ->). simpl in Hv.
    apply IH in Hloop as (pbs & Hpbs & ->). exists ((k, value_pb) :: pbs).
    split; [rewrite !fmap_cons, Hpbs; simpl; by rewrite Hv|].
    rewrite reverse_cons, list_to_map_app. simpl.
    rewrite <-(assoc_L (∪)), <-insert_union_l, (left_id_L ∅ (∪)).
    destruct kvs as [|kv kvs].
    + destruct pbs; [|done]. rewrite reverse_nil. simpl.
      rewrite (left_id_L ∅ (∪)). by destruct pb.
    + by destruct pb.
Qed.

Lemma encode_json_payload_Ok mapping pb pb' :
  encode_json_payload mapping pb = Ok pb' →
  ∃ p, pb' = LogEntry.set_payload p pb
    ∧ match mapping !! "jsonPayload" with
      | Some v =>
          ∃ d, v = VDict d
               ∧ if decide (d = ∅) then p = LogEntry.payload pb
                 else ∃ s0 : gmap string Value,
                        _SetStructValue <$> d = Ok <$> s0
                        ∧ p = LogEntry.JsonPayload (s0 ∪ LogEntry.json_payload pb)
      | None => p = LogEntry.payload pb
      end.
Proof.
  unfold encode_json_payload. intros Henc. exists (LogEntry.payload pb').
  destruct (mapping !! "jsonPayload") as [v|].
  - inv_bind Henc. apply items_Ok in Ha as (d & -> & ->).
    apply for_each_json_Ok in Henc as (pbs & Hpbs & ->).
    destruct (decide (d = ∅)) as [->|Hd].
    + rewrite map_to_list_empty. split; [by destruct pb|].
      exists ∅. split; [done|]. by rewrite decide_True.
    + destruct (map_to_list d) as [|kv kvs] eqn:Hkvs.
      { by apply map_to_list_empty_iff in Hkvs. }
      rewrite <-Hkvs in Hpbs. split; [by destruct pb|].
      exists d. split; [done|]. rewrite decide_False by done.
      exists (list_to_map (reverse pbs)). split; [|by destruct pb].
      assert (NoDup pbs.*1) as Hnodup.
      { replace (pbs.*1) with ((map_to_list d).*1); [apply NoDup_fst_map_to_list|].
        transitivity ((prod_map id _SetStructValue <$> map_to_list d).*1).
        - rewrite <-list_fmap_compose. by apply list_fmap_ext; intros ? [].
        - rewrite Hpbs, <-list_fmap_compose. by apply list_fmap_ext; intros ? []. }
      rewrite list_to_map_reverse by done.
      rewrite <-(list_to_map_to_list d) at 1.
      by rewrite <-!list_to_map_fmap, Hpbs.
  - injection Henc as <-. by destruct pb.
Qed.

Lemma encode_proto_payload_Ok mapping pb pb' :
  encode_proto_payload mapping pb = Ok pb' →
  ∃ p, pb' = LogEntry.set_payload p pb
    ∧ match mapping !! "protoPayload" with
      | Some v => ∃ written,
                    Parse_json_dumps v (LogEntry.proto_payload pb) = Ok written
                    ∧ p = match written with
                          | Some a => LogEntry.ProtoPayload a
                          | None => LogEntry.payload pb
                          end
      | None => p = LogEntry.payload pb
      end.
Proof.
  unfold encode_proto_payload. intros Henc. exists (LogEntry.payload pb').
  destruct (mapping !! "protoPayload") as [v|].
  - inv_bind Henc. destruct a as [any|]; injection Henc as <-;
      (split; [by destruct pb|]); eauto.
  - injection Henc as <-. by destruct pb.
Qed.

Lemma encode_http_request_Ok mapping pb pb' :
  encode_http_request mapping pb = Ok pb' →
  ∃ h, pb' = LogEntry.set_http_request h pb
    ∧ match mapping !! "httpRequest" with
      | Some info => _http_request_mapping_to_pb info (LogEntry.http_request pb) = Ok h
      | None => h = LogEntry.http_request pb
      end.
Proof.
  unfold encode_http_request. intros Henc. exists (LogEntry.http_request pb').
  destruct (mapping !! "httpRequest") as [v|].
  - inv_bind Henc. injection Henc as <-. split; [by destruct pb|]. done.
  - injection Henc as <-. by destruct pb.
Qed.

Lemma encode_operation_Ok mapping pb pb' :
  encode_operation mapping pb = Ok pb' →
  ∃ o, pb' = LogEntry.set_operation o pb
    ∧ match mapping !! "operation" with
      | Some info => _log_operation_mapping_to_pb info (LogEntry.operation pb) = Ok o
      | None => o = LogEntry.operation pb
      end.
Proof.
  unfold encode_operation. intros Henc. exists (LogEntry.operation pb').
  destruct (mapping !! "operation") as [v|].
  - inv_bind Henc. injection Henc as <-. split; [by destruct pb|]. done.
  - injection Henc as <-. by destruct pb.
Qed.

(** What a returned message says about the mapping it encodes: each field
    is the default or what its key gave; [p1] and [p2] are the payload after
    the [textPayload] and after the [jsonPayload] block. *)
Lemma log_entry_mapping_to_pb_Ok mapping pb :
  _log_entry_mapping_to_pb mapping = Ok pb →
  ∃ p1 p2,
    match mapping !! "logName" with
    | Some v => v = VStr (LogEntry.log_name pb)
    | None => LogEntry.log_name pb = ""
    end
    ∧ match mapping !! "insertId" with
      | Some v => v = VStr (LogEntry.insert_id pb)
      | None => LogEntry.insert_id pb = ""
      end
    ∧ match mapping !! "textPayload" with
      | Some v => ∃ s, v = VStr s ∧ p1 = LogEntry.TextPayload s
      | None => p1 = LogEntry.PayloadUnset
      end
    ∧ match mapping !! "resource" with
      | Some v => ∃ d s, v = VDict d ∧ d !! "type" = Some (VStr s)
                         ∧ LogEntry.resource pb
                           = MonitoredResource.set_type s MonitoredResource.default
      | None => LogEntry.resource pb = MonitoredResource.default
      end
    ∧ match mapping !! "severity" with
      | Some (VStr name) => LogSeverity.Value name = Ok (LogEntry.severity pb)
      | Some v => check_int 32 v = Ok (LogEntry.severity pb)
      | None => LogEntry.severity pb = 0
      end
    ∧ match mapping !! "timestamp" with
      | Some v => _datetime_to_pb_timestamp v = Ok (LogEntry.timestamp pb)
      | None => LogEntry.timestamp pb = Timestamp.default
      end
    ∧ match mapping !! "labels" with
      | Some v => v = VDict (VStr <$> LogEntry.labels pb)
      | None => LogEntry.labels pb = ∅
      end
    ∧ match mapping !! "jsonPayload" with
      | Some v =>
          ∃ d, v = VDict d
               ∧ if decide (d = ∅) then p2 = p1
                 else ∃ s0 : gmap string Value,
                        _SetStructValue <$> d = Ok <$> s0
                        ∧ p2 = LogEntry.JsonPayload s0
      | None => p2 = p1
      end
    ∧ match mapping !! "protoPayload" with
      | Some v => ∃ written,
                    Parse_json_dumps v (mkAny "" "") = Ok written
                    ∧ LogEntry.payload pb = match written with
                                            | Some a => LogEntry.ProtoPayload a
                                            | None => p2
                                            end
      | None => LogEntry.payload pb = p2
      end
    ∧ match mapping !! "httpRequest" with
      | Some info => _http_request_mapping_to_pb info HttpRequest.default
                     = Ok (LogEntry.http_request pb)
      | None => LogEntry.http_request pb = HttpRequest.default
      end
    ∧ match mapping !! "operation" with
      | Some info => _log_operation_mapping_to_pb info LogEntryOperation.default
                     = Ok (LogEntry.operation pb)
      | None => LogEntry.operation pb = LogEntryOperation.default
      end.
Proof.
  unfold _log_entry_mapping_to_pb. intros Henc. inv_bind Henc.
  injection Henc as <-.
  apply encode_scalars_Ok in Ha as (n & i & p1 & -> & Hn & Hi & Hp1).
  apply encode_resource_Ok in Ha0 as (r & -> & Hr).
  apply encode_severity_Ok in Ha1 as (c & -> & Hc).
  apply encode_timestamp_Ok in Ha2 as (t & -> & Ht).
  apply encode_labels_Ok in Ha3 as (l & -> & Hl).
  apply encode_json_payload_Ok in Ha4 as (p2 & -> & Hp2).
  apply encode_proto_payload_Ok in Ha5 as (p3 & -> & Hp3).
  apply encode_http_request_Ok in Ha6 as (h & -> & Hh).
  apply encode_operation_Ok in Ha7 as (o & -> & Ho).
  simpl in *. exists p1, p2.
  assert (LogEntry.json_payload
            (LogEntry.set_labels l (LogEntry.set_timestamp t
               (LogEntry.set_severity c (LogEntry.set_resource r
                  (LogEntry.set_payload p1 (LogEntry.set_insert_id i
                     (LogEntry.set_log_name n LogEntry.default))))))) = ∅) as Hjson.
  { unfold LogEntry.json_payload. simpl.
    destruct (mapping !! "textPayload"); [by destruct Hp1 as (? & _ & ->)|by subst]. }
  repeat split.
  - by destruct (mapping !! "logName"); subst.
  - by destruct (mapping !! "insertId"); subst.
  - done.
  - done.
  - done.
  - done.
  - destruct (mapping !! "labels"); [|done].
    destruct Hl as (l0 & -> & ->). by rewrite (right_id_L ∅ (∪)).
  - destruct (mapping !! "jsonPayload"); [|done].
    destruct Hp2 as (d & -> & Hd). exists d. split; [done|].
    case_decide; [done|]. destruct Hd as (s0 & Hs0 & ->). exists s0.
    by rewrite Hjson, (right_id_L ∅ (∪)).
  - destruct (mapping !! "protoPayload"); [|done].
    destruct Hp3 as (written & Hparse & ->). exists written. split; [|done].
    assert (p1 = LogEntry.PayloadUnset ∨ ∃ s, p1 = LogEntry.TextPayload s)
      as Hp1'.
    { destruct (mapping !! "textPayload"); [|by left].
      destruct Hp1 as (s & _ & ->). eauto. }
    assert (p2 = p1 ∨ ∃ s0, p2 = LogEntry.JsonPayload s0) as Hp2'.
    { destruct (mapping !! "jsonPayload"); [|by left].
      destruct Hp2 as (d & _ & Hd). case_decide; [by left|].
      destruct Hd as (s0 & _ & ->). eauto. }
    unfold LogEntry.proto_payload in Hparse. simpl in Hparse.
    by destruct Hp2' as [->|[s0 ->]], Hp1' as [->|[s ->]].
  - done.
  - done.
Qed.

(** ** Decoding a message *)

Lemma HasField_payload pb :
  LogEntry.HasField pb "text_payload"
  = match LogEntry.payload pb with LogEntry.TextPayload _ => true | _ => false end
  ∧ LogEntry.HasField pb "json_payload"
    = match LogEntry.payload pb with LogEntry.JsonPayload _ => true | _ => false end
  ∧ LogEntry.HasField pb "proto_payload"
    = match LogEntry.payload pb with LogEntry.ProtoPayload _ => true | _ => false end.
Proof. unfold LogEntry.HasField. by destruct (LogEntry.payload pb). Qed.

(** What a decoded mapping holds at each of the keys the decoder knows. *)
Lemma log_entry_pb_to_mapping_Ok pb mapping :
  _log_entry_pb_to_mapping pb = Ok mapping →
  mapping !! "logName" = Some (VStr (LogEntry.log_name pb))
  ∧ mapping !! "resource"
    = Some (VDict (_mon_resource_pb_to_mapping (LogEntry.resource pb)))
  ∧ (∃ name, LogSeverity.Name (LogEntry.severity pb) = Ok name
             ∧ mapping !! "severity" = Some (VStr name))
  ∧ mapping !! "insertId" = Some (VStr (LogEntry.insert_id pb))
  ∧ (∃ text, _pb_timestamp_to_rfc3339 (LogEntry.timestamp pb) = Ok text
             ∧ mapping !! "timestamp" = Some (VStr text))
  ∧ mapping !! "labels" = Some (VDict (VStr <$> LogEntry.labels pb))
  ∧ mapping !! "textPayload"
    = match LogEntry.payload pb with
      | LogEntry.TextPayload s => Some (VStr s)
      | _ => None
      end
  ∧ match LogEntry.payload pb with
    | LogEntry.JsonPayload struct_pb =>
        ∃ json, _struct_pb_to_mapping struct_pb = Ok json
                ∧ mapping !! "jsonPayload" = Some (VDict json)
    | _ => mapping !! "jsonPayload" = None
    end
  ∧ mapping !! "protoPayload"
    = match LogEntry.payload pb with
      | LogEntry.ProtoPayload a => Some (VMessage a)
      | _ => None
      end
  ∧ mapping !! "httpRequest"
    = Some (VDict (http_request_mapping (LogEntry.http_request pb)))
  ∧ mapping !! "operation"
    = Some (VDict (operation_mapping (LogEntry.operation pb))).
Proof.
  unfold _log_entry_pb_to_mapping.
  destruct (HasField_payload pb) as (-> & -> & ->).
  unfold LogEntry.text_payload, LogEntry.json_payload, LogEntry.proto_payload,
    message_truthy.
  intros Hdec. inv_bind Hdec.
  destruct (LogEntry.payload pb) as [|any|text|struct_pb]; simpl in *;
    inv_bind Ha1; injection Hdec as <-; injection Ha1 as <-;
    repeat split; eauto.
Qed.

(** C2, as the code has it.  A decoded mapping always holds [logName],
    [insertId] and [labels] with what the message's field reads as,
    [resource] with the mapping of the resource, [severity] with the enum's
    name of the severity number and [timestamp] with the RFC 3339 text of
    the timestamp, whether or not the message populated them: a field that
    is not populated reads as its default.  It holds [textPayload],
    [jsonPayload] and [protoPayload] exactly when [HasField] says the
    message has that payload. *)
Theorem decoded_keys_follow_presence pb mapping :
  _log_entry_pb_to_mapping pb = Ok mapping →
  mapping !! "logName" = Some (VStr (LogEntry.log_name pb))
  ∧ mapping !! "resource"
    = Some (VDict (_mon_resource_pb_to_mapping (LogEntry.resource pb)))
  ∧ (∃ name, LogSeverity.Name (LogEntry.severity pb) = Ok name
             ∧ mapping !! "severity" = Some (VStr name))
  ∧ mapping !! "insertId" = Some (VStr (LogEntry.insert_id pb))
  ∧ (∃ text, _pb_timestamp_to_rfc3339 (LogEntry.timestamp pb) = Ok text
             ∧ mapping !! "timestamp" = Some (VStr text))
  ∧ mapping !! "labels" = Some (VDict (VStr <$> LogEntry.labels pb))
  ∧ (is_Some (mapping !! "textPayload") ↔ LogEntry.HasField pb "text_payload" = true)
  ∧ (is_Some (mapping !! "jsonPayload") ↔ LogEntry.HasField pb "json_payload" = true)
  ∧ (is_Some (mapping !! "protoPayload") ↔ LogEntry.HasField pb "proto_payload" = true).
Proof.
  intros Hdec.
  apply log_entry_pb_to_mapping_Ok in Hdec
    as (Hname & Hres & Hsev & Hid & Hts & Hlabels & Htext & Hjson & Hproto & _).
  destruct (HasField_payload pb) as (-> & -> & ->).
  do 6 (split; [done|]).
  rewrite Htext, Hproto. clear Htext Hproto.
  destruct (LogEntry.payload pb); try destruct Hjson as (json & _ & Hjson);
    rewrite Hjson; repeat split;
    first [done | by eexists | by intros [? [=]]].
Qed.

(** C7.  In a message [_log_entry_mapping_to_pb] returns, the severity
    field is a number: the enum's value of the name, when the mapping gave
    a name, and the number itself, when it gave a number. *)
Theorem severity_is_stored_as_code mapping pb :
  _log_entry_mapping_to_pb mapping = Ok pb →
  (∀ name, mapping !! "severity" = Some (VStr name) →
           LogSeverity.Value name = Ok (LogEntry.severity pb))
  ∧ (∀ n, mapping !! "severity" = Some (VInt n) → LogEntry.severity pb = n).
Proof.
  intros Henc.
  apply log_entry_mapping_to_pb_Ok in Henc
    as (p1 & p2 & _ & _ & _ & _ & Hsev & _).
  split.
  - intros name Hname. by rewrite Hname in Hsev.
  - intros n Hn. rewrite Hn in Hsev. by eapply check_int_VInt.
Qed.

(** ** The operation block *)

Lemma operation_without_producer (d : gmap string value) o :
  d !! "producer" = None →
  _log_operation_mapping_to_pb (VDict d) o = Raise (KeyError "producer").
Proof. intros Hd. unfold _log_operation_mapping_to_pb. simpl. by rewrite Hd. Qed.

Lemma operation_without_id (d : gmap string value) o s :
  d !! "producer" = Some (VStr s) →
  d !! "id" = None →
  _log_operation_mapping_to_pb (VDict d) o = Raise (KeyError "id").
Proof.
  intros Hp Hd. unfold _log_operation_mapping_to_pb. simpl. by rewrite Hp, Hd.
Qed.

Lemma operation_lacking_key_raises (d : gmap string value) o :
  d !! "producer" = None ∨ d !! "id" = None →
  ∃ e, _log_operation_mapping_to_pb (VDict d) o = Raise e.
Proof.
  intros Hlack. destruct (d !! "producer") as [v|] eqn:Hp.
  - destruct Hlack as [|Hid]; [done|].
    destruct v; try (unfold _log_operation_mapping_to_pb; simpl; rewrite Hp;
                     by eexists).
    eexists. by eapply operation_without_id.
  - eexists. by apply operation_without_producer.
Qed.

(** The blocks before the last do not look at the [operation] key. *)
Lemma encode_blocks_without_operation mapping pb :
  encode_scalars (delete "operation" mapping) pb = encode_scalars mapping pb
  ∧ encode_resource (delete "operation" mapping) pb = encode_resource mapping pb
  ∧ encode_severity (delete "operation" mapping) pb = encode_severity mapping pb
  ∧ encode_timestamp (delete "operation" mapping) pb = encode_timestamp mapping pb
  ∧ encode_labels (delete "operation" mapping) pb = encode_labels mapping pb
  ∧ encode_json_payload (delete "operation" mapping) pb
    = encode_json_payload mapping pb
  ∧ encode_proto_payload (delete "operation" mapping) pb
    = encode_proto_payload mapping pb
  ∧ encode_http_request (delete "operation" mapping) pb
    = encode_http_request mapping pb
  ∧ encode_operation (delete "operation" mapping) pb = Ok pb.
Proof.
  unfold encode_scalars, encode_resource, encode_severity, encode_timestamp,
    encode_labels, encode_json_payload, encode_proto_payload,
    encode_http_request, encode_operation. simpl.
  rewrite lookup_delete_eq. by rewrite !lookup_delete_ne by done.
Qed.

Lemma log_entry_mapping_to_pb_operation_last mapping :
  _log_entry_mapping_to_pb mapping
  = pb ← _log_entry_mapping_to_pb (delete "operation" mapping);
    encode_operation mapping pb.
Proof.
  unfold _log_entry_mapping_to_pb.
  destruct (encode_blocks_without_operation mapping LogEntry.default) as (-> & _).
  destruct (encode_scalars mapping LogEntry.default) as [pb1|]; [simpl|done].
  destruct (encode_blocks_without_operation mapping pb1) as (_ & -> & _).
  destruct (encode_resource mapping pb1) as [pb2|]; [simpl|done].
  destruct (encode_blocks_without_operation mapping pb2) as (_ & _ & -> & _).
  destruct (encode_severity mapping pb2) as [pb3|]; [simpl|done].
  destruct (encode_blocks_without_operation mapping pb3) as (_ & _ & _ & -> & _).
  destruct (encode_timestamp mapping pb3) as [pb4|]; [simpl|done].
  destruct (encode_blocks_without_operation mapping pb4)
    as (_ & _ & _ & _ & -> & _).
  destruct (encode_labels mapping pb4) as [pb5|]; [simpl|done].
  destruct (encode_blocks_without_operation mapping pb5)
    as (_ & _ & _ & _ & _ & -> & _).
  destruct (encode_json_payload mapping pb5) as [pb6|]; [simpl|done].
  destruct (encode_blocks_without_operation mapping pb6)
    as (_ & _ & _ & _ & _ & _ & -> & _).
  destruct (encode_proto_payload mapping pb6) as [pb7|]; [simpl|done].
  destruct (encode_blocks_without_operation mapping pb7)
    as (_ & _ & _ & _ & _ & _ & _ & -> & _).
  destruct (encode_http_request mapping pb7) as [pb8|]; [simpl|done].
  destruct (encode_blocks_without_operation mapping pb8)
    as (_ & _ & _ & _ & _ & _ & _ & _ & ->). simpl.
  by destruct (encode_operation mapping pb8).
Qed.

(** C9, as the code has it.  A mapping whose [operation] lacks [producer]
    or [id] is never encoded: [_log_entry_mapping_to_pb] raises.  The
    operation block runs last, so the exception is the [KeyError] of the
    missing key when the rest of the mapping encodes: of [producer] when it
    is missing, of [id] when [producer] is a string and [id] is missing. *)
Theorem operation_needs_producer_and_id mapping (d : gmap string value) :
  mapping !! "operation" = Some (VDict d) →
  d !! "producer" = None ∨ d !! "id" = None →
  (∃ e, _log_entry_mapping_to_pb mapping = Raise e)
  ∧ (∀ pb, _log_entry_mapping_to_pb (delete "operation" mapping) = Ok pb →
       (d !! "producer" = None →
        _log_entry_mapping_to_pb mapping = Raise (KeyError "producer"))
       ∧ (∀ s, d !! "producer" = Some (VStr s) → d !! "id" = None →
               _log_entry_mapping_to_pb mapping = Raise (KeyError "id"))).
Proof.
  intros Hop Hlack. rewrite log_entry_mapping_to_pb_operation_last.
  split.
  - destruct (_log_entry_mapping_to_pb (delete "operation" mapping)) as [pb|e];
      simpl; [|by eexists].
    unfold encode_operation. rewrite Hop.
    destruct (operation_lacking_key_raises d (LogEntry.operation pb) Hlack)
      as [e ->]. by eexists.
  - intros pb ->. simpl. unfold encode_operation. rewrite Hop. split.
    + intros Hp. by rewrite operation_without_producer.
    + intros s Hp Hid. by rewrite (operation_without_id _ _ s).
Qed.

(** ** Round trips *)


Lemma Name_Value code name :
  LogSeverity.Name code = Ok name → LogSeverity.Value name = Ok code.
Proof.
  unfold LogSeverity.Name, LogSeverity.values. cbn -[Z.eqb].
  repeat match goal with
         | |- context [Z.eqb ?a ?b] =>
             destruct (Z.eqb_spec a b) as [<-|_]; [by intros [= <-]|]
         end.
  done.
Qed.

Lemma mapM_Ok {A B : Type} (f : A → result B) (l : list A) (k : list B) :
  mapM f l = Ok k → Forall2 (λ x y, f x = Ok y) l k.
Proof.
  revert k. induction l as [|x l IH]; intros k Hk; simpl in Hk.
  - injection Hk as <-. constructor.
  - inv_bind Hk. inv_bind Hk. injection Hk as <-. constructor; auto.
Qed.

Lemma map_sequence_Ok {A : Type} (m : gmap string (result A)) (j : gmap string A) :
  map_sequence m = Ok j → m = Ok <$> j.
Proof.
  unfold map_sequence. intros Hseq. inv_bind Hseq. injection Hseq as <-.
  apply mapM_Ok in Ha. rewrite <-(list_to_map_to_list m), <-list_to_map_fmap.
  f_equal. induction Ha as [|[k r] [k' v] l l' Hkr _ IH]; [done|].
  simpl in Hkr. inv_bind Hkr. injection Hkr as <- <-. simpl in Ha.
  subst r. by rewrite fmap_cons, IH.
Qed.










End Translation.

(** ** Examples *)
Import Examples.

(** C8 on a sink that exists, a sink that does not, and a transport that
    is unavailable. *)
Lemma sink_create_get_translate_status_witness :
  sink_create refusing_sinks "p" "s" "severity>=ERROR" "storage.googleapis.com/b"
  = Raise (Conflict "projects/p/sinks/s")
  ∧ sink_get refusing_sinks "p" "s" = Raise (NotFound "projects/p/sinks/s")
  ∧ sink_get
      {| Gax.list_sinks _ _ _ := Ok ([], "");
         Gax.create_sink _ sink_pb _ := Ok sink_pb;
         Gax.get_sink _ _ := Raise (GaxError (RpcError UNAVAILABLE));
         Gax.update_sink _ sink_pb _ := Ok sink_pb;
         Gax.delete_sink _ _ := Ok () |} "p" "s"
    = Raise (GaxError (RpcError UNAVAILABLE)).
Proof.
  split; [|split].
  - apply (sink_create_get_translate_status refusing_sinks "p" "s"
             "severity>=ERROR" "storage.googleapis.com/b")
      with (cause := RpcError FAILED_PRECONDITION); reflexivity.
  - apply (sink_create_get_translate_status refusing_sinks "p" "s" "" "")
      with (cause := RpcError NOT_FOUND); reflexivity.
  - apply (sink_create_get_translate_status _ "p" "s" "" "");
      [reflexivity|]. by intros cause [= <-].
Defined.

(** C10 on transports that answer with a message of their own. *)
Lemma update_returns_request_mapping_witness :
  sink_update accepting_sinks "p" "s" "severity>=ERROR" "storage.googleapis.com/b"
  = Ok {[ "name" := VStr "projects/p/sinks/s"; "filter" := VStr "severity>=ERROR";
          "destination" := VStr "storage.googleapis.com/b" ]}
  ∧ metric_update accepting_metrics "p" "s" "severity>=ERROR" "errors"
    = Ok {[ "name" := VStr "projects/p/metrics/s";
            "filter" := VStr "severity>=ERROR"; "description" := VStr "errors" ]}.
Proof.
  split.
  - apply (update_returns_request_mapping accepting_sinks accepting_metrics
             "p" "s" "severity>=ERROR" "storage.googleapis.com/b" "errors")
      with (reply := LogSink.mk "stored" "" "").
    reflexivity.
  - apply (update_returns_request_mapping accepting_sinks accepting_metrics
             "p" "s" "severity>=ERROR" "storage.googleapis.com/b" "errors")
      with (reply := LogMetric.mk "stored" "" "").
    reflexivity.
Defined.

(** C5 on the [null_value] member. *)
Lemma value_pb_with_other_kind_raises_witness :
  WhichOneof NullValue = Some "null_value"
  ∧ _value_pb_to_value NullValue
    = Raise (ValueError "Value protobuf had unknown kind: null_value").
Proof.
  split; [reflexivity|].
  apply (value_pb_with_other_kind_raises NullValue "null_value"); [reflexivity|].
  intros Hin.
  repeat (apply elem_of_cons in Hin as [Hin|Hin]; [discriminate Hin|]).
  by apply elem_of_nil in Hin.
Defined.



(** C2, as the code has it, on a message with a text payload. *)
Lemma decoded_keys_follow_presence_witness :
  text_decoded !! "logName" = Some (VStr (LogEntry.log_name text_entry_pb))
  ∧ text_decoded !! "resource"
    = Some (VDict (_mon_resource_pb_to_mapping (LogEntry.resource text_entry_pb)))
  ∧ (∃ name, LogSeverity.Name (LogEntry.severity text_entry_pb) = Ok name
             ∧ text_decoded !! "severity" = Some (VStr name))
  ∧ text_decoded !! "insertId" = Some (VStr (LogEntry.insert_id text_entry_pb))
  ∧ (∃ text, _pb_timestamp_to_rfc3339 (LogEntry.timestamp text_entry_pb) = Ok text
             ∧ text_decoded !! "timestamp" = Some (VStr text))
  ∧ text_decoded !! "labels" = Some (VDict (VStr <$> LogEntry.labels text_entry_pb))
  ∧ (is_Some (text_decoded !! "textPayload")
     ↔ LogEntry.HasField text_entry_pb "text_payload" = true)
  ∧ (is_Some (text_decoded !! "jsonPayload")
     ↔ LogEntry.HasField text_entry_pb "json_payload" = true)
  ∧ (is_Some (text_decoded !! "protoPayload")
     ↔ LogEntry.HasField text_entry_pb "proto_payload" = true).
Proof.
  apply (decoded_keys_follow_presence text_entry_pb text_decoded).
  vm_compute. reflexivity.
Defined.

(** C2 fails on the empty message: no field of it is populated, and the
    decoded mapping holds [logName], [insertId] and [labels] all the same. *)
Lemma empty_entry_decodes_with_unpopulated_keys :
  LogEntry.log_name LogEntry.default = ""
  ∧ LogEntry.insert_id LogEntry.default = ""
  ∧ LogEntry.labels LogEntry.default = ∅
  ∧ (mapping ← _log_entry_pb_to_mapping LogEntry.default;
     Ok (mapping !! "logName", mapping !! "insertId", mapping !! "labels"))
    = Ok (Some (VStr ""), Some (VStr ""), Some (VDict ∅)).
Proof. repeat split; vm_compute; reflexivity. Qed.

(** C7 on a severity given by name and one given as a number. *)
Lemma severity_is_stored_as_code_witness :
  LogSeverity.Value "ERROR"
  = Ok (LogEntry.severity (LogEntry.set_severity 500 LogEntry.default))
  ∧ LogEntry.severity (LogEntry.set_severity 200 LogEntry.default) = 200.
Proof.
  split.
  - apply (severity_is_stored_as_code named_severity_mapping
             (LogEntry.set_severity 500 LogEntry.default));
      vm_compute; reflexivity.
  - apply (severity_is_stored_as_code numeric_severity_mapping
             (LogEntry.set_severity 200 LogEntry.default));
      vm_compute; reflexivity.
Defined.

(** C9, as the code has it, on an operation that names no producer. *)
Lemma operation_needs_producer_and_id_witness :
  _log_entry_mapping_to_pb producerless_mapping = Raise (KeyError "producer").
Proof.
  apply (operation_needs_producer_and_id producerless_mapping
           {[ "id" := VStr "op-1" ]})
    with (pb := LogEntry.set_log_name "projects/p/logs/app" LogEntry.default).
  - vm_compute. reflexivity.
  - left. vm_compute. reflexivity.
  - vm_compute. reflexivity.
  - vm_compute. reflexivity.
Defined.

(** C9 fails when an earlier key fails first: the operation lacks both
    keys, and the exception is the [ValueError] of the unknown severity. *)
Lemma earlier_key_raises_before_operation :
  unknown_severity_mapping !! "operation" = Some (VDict ∅)
  ∧ _log_entry_mapping_to_pb unknown_severity_mapping
    = Raise (ValueError "Enum LogSeverity has no value defined for name BOGUS").
Proof. split; vm_compute; reflexivity. Qed.

End LoggingProps.

(** * More properties of gcloud/datastore/entity.py *)

Module DatastoreExtra.
Import Datastore.

Section Save.
Context {Key KeyPB Id Txn V : Type} `{!KeyLike Key KeyPB Id}.
Implicit Types (self : Entity (Key:=Key) (V:=V)).
Implicit Types (log : list (call (Key:=Key) (KeyPB:=KeyPB) (Txn:=Txn) (V:=V))).
Implicit Types (conn : Connection (Key:=Key) (KeyPB:=KeyPB) (Id:=Id) (Txn:=Txn) (V:=V)).

Ltac run_save H :=
  unfold save, _must_key, mbind, M_bind, get_self, raise, lift, invoke,
    set_key, mret, M_ret in H; simpl in H.

(** X1.  Whatever [save] returns or raises, it leaves the fields and the
    excluded names of the entity alone and only adds to the log of calls;
    when it raises, the key is unchanged too: the entity is the one it
    started from. *)
Theorem save_keeps_fields_and_failed_save_keeps_key
    (implicit connection : option (Connection (Id:=Id))) self log r self' log' :
  save implicit connection (self, log) = (r, (self', log')) →
  fields self' = fields self
  ∧ _exclude_from_indexes self' = _exclude_from_indexes self
  ∧ (∀ e, r = Raise e → self' = self)
  ∧ ∃ calls, log' = log ++ calls ∧ (length calls ≤ 3)%nat.
Proof.
  intros Hrun. run_save Hrun.
  assert (∀ l : list (call (Key:=Key) (KeyPB:=KeyPB) (Txn:=Txn) (V:=V)),
            (length l ≤ 3)%nat → ∃ calls, log ++ l = log ++ calls
                                          ∧ (length calls ≤ 3)%nat)
    as Hcalls by eauto.
  destruct (key self) as [k|] eqn:Hkey; simpl in Hrun.
  - destruct (py_or connection implicit) as [conn|]; simpl in Hrun.
    + repeat (case_match; simplify_eq/=); rewrite <-?app_assoc;
        (split; [done|]); (split; [done|]);
        (split; [try done; destruct self; simpl in *; congruence|]);
        apply Hcalls; simpl; lia.
    + injection Hrun as <- <- <-. repeat split; try done.
      exists []. split; [by rewrite app_nil_r|simpl; lia].
  - injection Hrun as <- <- <-. repeat split; try done.
    exists []. split; [by rewrite app_nil_r|simpl; lia].
Qed.

(** X2.  A transport failure is passed on as it is.  When [save_entity]
    raises, [save] raises the same exception after that one call:
    [transaction()] is not asked and nothing is registered.  When
    [transaction()] raises, [save] raises that exception after the two
    calls.  In both cases the entity is unchanged. *)
Theorem save_passes_transport_failure_on
    (implicit connection : option (Connection (Id:=Id))) conn self log k e :
  key self = Some k →
  py_or connection implicit = Some conn →
  let saving := save_entity_call (dataset_id k) (to_protobuf k) (fields self)
                  (exclude_from_indexes self) in
  (save_entity conn log (dataset_id k) (to_protobuf k) (fields self)
     (exclude_from_indexes self) = Raise e →
   save implicit connection (self, log) = (Raise e, (self, log ++ [saving])))
  ∧ (∀ answer,
       save_entity conn log (dataset_id k) (to_protobuf k) (fields self)
         (exclude_from_indexes self) = Ok answer →
       transaction conn (log ++ [saving]) = Raise e →
       save implicit connection (self, log)
       = (Raise e, (self, log ++ [saving; transaction_call]))).
Proof.
  intros Hkey Hconn saving. split.
  - intros Hsave. unfold save, _must_key, mbind, M_bind, get_self, raise, lift,
      invoke, set_key, mret, M_ret. simpl. rewrite Hkey, Hconn. simpl.
    by rewrite Hsave.
  - intros [assigned new_id] Hsave Htxn.
    unfold save, _must_key, mbind, M_bind, get_self, raise, lift,
      invoke, set_key, mret, M_ret. simpl. rewrite Hkey, Hconn. simpl.
    rewrite Hsave. simpl. fold saving. rewrite Htxn. simpl.
    by rewrite <-app_assoc.
Qed.

(** X3.  [save] uses the implicit connection only when it is given none:
    a connection passed to it is the one it calls, whatever the implicit
    one is; with no connection at all, an entity that has a key raises
    [AttributeError] before any call is made. *)
Theorem save_uses_implicit_connection_only_as_fallback
    (implicit : option (Connection (Id:=Id))) self log :
  (∀ conn, save implicit (Some conn) (self, log) = save None (Some conn) (self, log))
  ∧ save implicit None (self, log) = save None implicit (self, log)
  ∧ (∀ k, key self = Some k →
          save None None (self, log) = (Raise AttributeError, (self, log))).
Proof.
  repeat split.
  - unfold save. simpl. by destruct implicit.
  - intros k Hkey. unfold save, _must_key, mbind, M_bind, get_self, raise. simpl.
    by rewrite Hkey.
Qed.

End Save.

(** ** Examples *)
Import Examples MoreExamples.

(** X1 on a save that the backend refuses: the entity is as it was, and
    the log shows the one call made. *)
Lemma save_keeps_fields_and_failed_save_keeps_key_witness :
  fields partial_entity = fields partial_entity
  ∧ _exclude_from_indexes partial_entity = _exclude_from_indexes partial_entity
  ∧ (∀ e, Raise (A:=unit) (OtherError "ServiceUnavailable") = Raise e →
          partial_entity = partial_entity)
  ∧ ∃ calls,
      no_calls
      ++ [save_entity_call (dataset_id person_key) (to_protobuf person_key)
            (fields partial_entity) (exclude_from_indexes partial_entity)]
      = no_calls ++ calls
      ∧ (length calls ≤ 3)%nat.
Proof.
  apply (save_keeps_fields_and_failed_save_keeps_key None
           (Some unavailable_connection) partial_entity no_calls
           (Raise (OtherError "ServiceUnavailable")) partial_entity
           (no_calls
            ++ [save_entity_call (dataset_id person_key) (to_protobuf person_key)
                  (fields partial_entity) (exclude_from_indexes partial_entity)])).
  vm_compute. reflexivity.
Defined.

(** X2 on the backend that is unavailable. *)
Lemma save_passes_transport_failure_on_witness :
  save None (Some unavailable_connection) (partial_entity, no_calls)
  = (Raise (OtherError "ServiceUnavailable"),
     (partial_entity,
      no_calls
      ++ [save_entity_call (dataset_id person_key) (to_protobuf person_key)
            (fields partial_entity) (exclude_from_indexes partial_entity)])).
Proof.
  apply (save_passes_transport_failure_on None (Some unavailable_connection)
           unavailable_connection partial_entity no_calls person_key
           (OtherError "ServiceUnavailable")).
  - reflexivity.
  - reflexivity.
  - reflexivity.
Defined.

End DatastoreExtra.

(** * More properties of google/cloud/logging/_gax.py *)

Module LoggingExtra.
Import Protobuf Logging LoggingProps.

Section Translation.
Context `{!Helpers}.
Implicit Types (mapping : gmap string value) (pb : LogEntry.t).

(** X4.  The encoder reads the eleven keys it knows and no other: a key
    outside them changes neither the message nor the exception. *)
Theorem encoder_ignores_unknown_keys mapping (k : string) (v : value) :
  k ∉ ["logName"; "insertId"; "textPayload"; "resource"; "severity";
       "timestamp"; "labels"; "jsonPayload"; "protoPayload"; "httpRequest";
       "operation"] →
  _log_entry_mapping_to_pb (<[k := v]> mapping) = _log_entry_mapping_to_pb mapping.
Proof.
  intros Hk. rewrite !not_elem_of_cons in Hk.
  destruct Hk as (? & ? & ? & ? & ? & ? & ? & ? & ? & ? & ? & _).
  unfold _log_entry_mapping_to_pb, encode_scalars, encode_resource,
    encode_severity, encode_timestamp, encode_labels, encode_json_payload,
    encode_proto_payload, encode_http_request, encode_operation,
    optional_scalar_keys.
  cbn [for_each fst snd]. by rewrite !lookup_insert_ne by done.
Qed.

(** X5.  [_http_request_mapping_to_pb] reads the nine request keys and no
    other: a key outside them in the [httpRequest] dict changes nothing. *)
Theorem http_request_ignores_unknown_keys (d : gmap string value) (k : string)
    (v : value) (request : HttpRequest.t) :
  k ∉ optional_request_keys.*1 →
  _http_request_mapping_to_pb (VDict (<[k := v]> d)) request
  = _http_request_mapping_to_pb (VDict d) request.
Proof.
  unfold optional_request_keys. cbn [fmap list_fmap fst].
  intros Hk. rewrite !not_elem_of_cons in Hk.
  destruct Hk as (? & ? & ? & ? & ? & ? & ? & ? & ? & _).
  unfold _http_request_mapping_to_pb, optional_request_keys, contains, getitem.
  cbn [for_each fst snd]. by rewrite !lookup_insert_ne by done.
Qed.

(** X6.  Of a [resource] the encoder keeps the [type] and nothing else:
    two resource dicts with the same [type] encode alike, whatever labels
    they carry. *)
Theorem encoder_keeps_only_resource_type mapping (d d' : gmap string value) :
  d !! "type" = d' !! "type" →
  _log_entry_mapping_to_pb (<["resource" := VDict d]> mapping)
  = _log_entry_mapping_to_pb (<["resource" := VDict d']> mapping).
Proof.
  intros Htype.
  unfold _log_entry_mapping_to_pb, encode_scalars, encode_resource,
    encode_severity, encode_timestamp, encode_labels, encode_json_payload,
    encode_proto_payload, encode_http_request, encode_operation,
    optional_scalar_keys, getitem.
  cbn [for_each fst snd]. rewrite !lookup_insert_eq.
  rewrite !lookup_insert_ne by done. by rewrite Htype.
Qed.

(** X7.  A decoded mapping holds at most one of [textPayload],
    [jsonPayload] and [protoPayload]. *)
Theorem decoded_payload_keys_exclude_each_other pb mapping :
  _log_entry_pb_to_mapping pb = Ok mapping →
  (is_Some (mapping !! "textPayload") →
   mapping !! "jsonPayload" = None ∧ mapping !! "protoPayload" = None)
  ∧ (is_Some (mapping !! "jsonPayload") →
     mapping !! "textPayload" = None ∧ mapping !! "protoPayload" = None)
  ∧ (is_Some (mapping !! "protoPayload") →
     mapping !! "textPayload" = None ∧ mapping !! "jsonPayload" = None).
Proof.
  intros Hdec.
  apply log_entry_pb_to_mapping_Ok in Hdec
    as (_ & _ & _ & _ & _ & _ & Htext & Hjson & Hproto & _).
  rewrite Htext, Hproto. clear Htext Hproto.
  destruct (LogEntry.payload pb); try destruct Hjson as (json & _ & Hjson);
    rewrite Hjson; repeat split; first [done | by intros [? [=]]].
Qed.


(** X8.  A [None] inside [jsonPayload] is written as a null value, which the
    decoder does not know: the mapping encodes, and the message it encodes
    to cannot be decoded. *)
Theorem none_in_json_payload_does_not_decode mapping (d : gmap string value)
    (k : string) pb :
  mapping !! "jsonPayload" = Some (VDict d) →
  d !! k = Some VNone →
  mapping !! "protoPayload" = None →
  _log_entry_mapping_to_pb mapping = Ok pb →
  ∃ e, _log_entry_pb_to_mapping pb = Raise e.
Proof.
  intros Hjson Hk Hproto Henc.
  apply log_entry_mapping_to_pb_Ok in Henc
    as (p1 & p2 & _ & _ & _ & _ & _ & _ & _ & Ejson & Eproto & _).
  rewrite Hjson in Ejson. rewrite Hproto in Eproto.
  destruct Ejson as (d' & [= <-] & Ejson).
  rewrite decide_False in Ejson by (intros ->; by rewrite lookup_empty in Hk).
  destruct Ejson as (s0 & Hs0 & ->).
  assert (s0 !! k = Some NullValue) as Hnull.
  { assert ((_SetStructValue <$> d) !! k = (Ok <$> s0) !! k) as Hsetk
      by (by rewrite Hs0).
    rewrite !lookup_fmap, Hk in Hsetk. simpl in Hsetk.
    destruct (s0 !! k); by simplify_eq/=. }
  destruct (_log_entry_pb_to_mapping pb) as [mapping'|e] eqn:Hdec; [|by eexists].
  apply log_entry_pb_to_mapping_Ok in Hdec
    as (_ & _ & _ & _ & _ & _ & _ & Djson & _).
  rewrite Eproto in Djson. destruct Djson as (json & Hdec & _).
  apply map_sequence_Ok in Hdec.
  assert ((_value_pb_to_value <$> s0) !! k = (Ok <$> json) !! k) as Hdeck
    by (by rewrite Hdec).
  rewrite !lookup_fmap, Hnull in Hdeck. simpl in Hdeck.
  destruct (json !! k); by simplify_eq/=.
Qed.

(** X9.  A message decodes only when its severity is a number of the enum;
    the decoded [severity] is then the name the enum pairs with that
    number.  A message with any other severity raises the [ValueError] of
    the enum, which names the number. *)
Theorem only_enum_severities_decode pb :
  (∀ mapping, _log_entry_pb_to_mapping pb = Ok mapping →
     ∃ name, (name, LogEntry.severity pb) ∈ LogSeverity.values
             ∧ mapping !! "severity" = Some (VStr name))
  ∧ (LogEntry.severity pb ∉ LogSeverity.values.*2 →
     _log_entry_pb_to_mapping pb
     = Raise (ValueError ("Enum LogSeverity has no name defined for value "
                          +:+ pretty (LogEntry.severity pb)))).
Proof.
  split.
  - intros mapping Hdec.
    apply log_entry_pb_to_mapping_Ok in Hdec
      as (_ & _ & (name & Hname & Hsev) & _).
    exists name. split; [|done]. unfold LogSeverity.Name in Hname.
    destruct (List.find _ _) as [[name' code]|] eqn:Hfind; [|done].
    injection Hname as ->. apply List.find_some in Hfind as [Hin Hcode].
    apply Z.eqb_eq in Hcode. simpl in Hcode. subst code.
    by apply list_elem_of_In.
  - intros Hout. unfold _log_entry_pb_to_mapping, LogSeverity.Name.
    destruct (List.find _ _) as [[name code]|] eqn:Hfind; [|done].
    apply List.find_some in Hfind as [Hin Hcode].
    apply Z.eqb_eq in Hcode. simpl in Hcode. subst code.
    destruct Hout. apply list_elem_of_fmap. exists (name, LogEntry.severity pb).
    split; [done|]. by apply list_elem_of_In.
Qed.

Lemma mon_resource_type (resource_pb : MonitoredResource.t) :
  _mon_resource_pb_to_mapping resource_pb !! "type"
  = Some (VStr (MonitoredResource.type resource_pb)).
Proof.
  unfold _mon_resource_pb_to_mapping. case_decide.
  - by rewrite lookup_singleton_eq.
  - by rewrite lookup_insert_ne, lookup_singleton_eq.
Qed.

Lemma Value_in_range name code :
  LogSeverity.Value name = Ok code → check_int 32 (VInt code) = Ok code.
Proof.
  unfold LogSeverity.Value, LogSeverity.values. cbn -[String.eqb].
  repeat match goal with
         | |- context [String.eqb ?a ?b] =>
             destruct (String.eqb_spec a b) as [<-|_]; [by intros [= <-]|]
         end.
  done.
Qed.

(** X10.  A decoded mapping holds its [timestamp] as text, and the encoder
    hands that text to [_datetime_to_pb_timestamp]: every block before it
    accepts what the decoder wrote, so when the helper refuses the text,
    encoding the decoded mapping raises the helper's exception. *)
Theorem decoded_mapping_reencodes_up_to_timestamp pb mapping :
  _log_entry_pb_to_mapping pb = Ok mapping →
  ∃ text, mapping !! "timestamp" = Some (VStr text)
          ∧ ∀ e, _datetime_to_pb_timestamp (VStr text) = Raise e →
                 _log_entry_mapping_to_pb mapping = Raise e.
Proof.
  intros Hdec.
  apply log_entry_pb_to_mapping_Ok in Hdec
    as (Dlog & Dres & (sev & Hsev & Dsev) & Did & (text & Htext & Dts)
        & _ & Dtext & _).
  exists text. split; [done|]. intros e Hraise.
  apply Name_Value in Hsev.
  unfold _log_entry_mapping_to_pb, encode_scalars, encode_resource,
    encode_severity, encode_timestamp, optional_scalar_keys.
  cbn [for_each fst snd]. rewrite Dlog, Did, Dtext, Dres, Dsev, Dts.
  assert (LogEntry.setattr "severity" (VInt (LogEntry.severity pb))
          = λ m, Ok (LogEntry.set_severity (LogEntry.severity pb) m)) as Hset.
  { unfold LogEntry.setattr. cbn -[check_int]. by rewrite (Value_in_range sev). }
  destruct (LogEntry.payload pb); cbn -[LogEntry.setattr];
    rewrite mon_resource_type, Hsev; cbn -[LogEntry.setattr];
    by rewrite Hset, Hraise.
Qed.

(** X11.  What a mapping must hold for the encoder to return: text under
    [logName], [insertId] and [textPayload], a dict with a text [type]
    under [resource], a dict of texts under [labels], a dict under
    [jsonPayload], a dict with text under [producer] and [id] under
    [operation], and under [severity] a name of the enum, an [int] of 32
    bits or a [bool]. *)
Theorem encoder_returns_only_on_well_typed_values mapping pb :
  _log_entry_mapping_to_pb mapping = Ok pb →
  (∀ k v, k ∈ ["logName"; "insertId"; "textPayload"] →
          mapping !! k = Some v → ∃ s, v = VStr s)
  ∧ (∀ v, mapping !! "resource" = Some v →
          ∃ d s, v = VDict d ∧ d !! "type" = Some (VStr s))
  ∧ (∀ v, mapping !! "severity" = Some v →
          (∃ name code, v = VStr name ∧ (name, code) ∈ LogSeverity.values)
          ∨ (∃ n, v = VInt n ∧ - 2 ^ 31 ≤ n < 2 ^ 31) ∨ (∃ b, v = VBool b))
  ∧ (∀ v, mapping !! "labels" = Some v →
          ∃ l : gmap string string, v = VDict (VStr <$> l))
  ∧ (∀ v, mapping !! "jsonPayload" = Some v → ∃ d, v = VDict d)
  ∧ (∀ v, mapping !! "operation" = Some v →
          ∃ d producer id, v = VDict d ∧ d !! "producer" = Some (VStr producer)
                           ∧ d !! "id" = Some (VStr id)).
Proof.
  intros Henc.
  apply log_entry_mapping_to_pb_Ok in Henc
    as (p1 & p2 & Elog & Eid & Etext & Eres & Esev & _ & Elabels & Ejson
        & _ & _ & Eop).
  repeat split.
  - intros k v Hk Hv.
    repeat (apply elem_of_cons in Hk as [->|Hk];
            [rewrite Hv in *; first [by eauto | by destruct Etext as (? & -> & _); eauto]|]).
    by apply elem_of_nil in Hk.
  - intros v Hv. rewrite Hv in Eres. destruct Eres as (d & s & -> & Hd & _). eauto.
  - intros v Hv. rewrite Hv in Esev. destruct v; try done.
    + right. right. eauto.
    + right. left. exists n. split; [done|]. simpl in Esev.
      case_bool_decide; [done|done].
    + left. unfold LogSeverity.Value in Esev.
      destruct (List.find _ _) as [[name code]|] eqn:Hfind; [|done].
      apply List.find_some in Hfind as [Hin Hname].
      apply String.eqb_eq in Hname. simpl in Hname. subst name.
      exists s, code. split; [done|]. by apply list_elem_of_In.
  - intros v Hv. rewrite Hv in Elabels. eauto.
  - intros v Hv. rewrite Hv in Ejson. destruct Ejson as (d & -> & _). eauto.
  - intros v Hv. rewrite Hv in Eop. destruct v as [| | | | | | |d|]; try done.
    unfold _log_operation_mapping_to_pb in Eop.
    inv_bind Eop. apply getitem_Ok in Ha as (d' & [= <-] & Hp).
    apply check_string_Ok in Ha0 as ->.
    apply getitem_Ok in Ha1 as (d' & [= <-] & Hi).
    apply check_string_Ok in Ha2 as ->. eauto 10.
Qed.

(** X12.  Of [textPayload], [jsonPayload] and [protoPayload] the message
    keeps the last one written, in that order.  A [protoPayload] that
    [Parse] writes to the message replaces the others; one on which [Parse]
    leaves the message alone, as it does on an empty dict, replaces
    nothing.  A [jsonPayload] that is not empty replaces a [textPayload],
    and an empty [jsonPayload] sets nothing. *)
Theorem later_payload_key_replaces_earlier mapping pb :
  _log_entry_mapping_to_pb mapping = Ok pb →
  let untouched :=
    mapping !! "protoPayload" = None
    ∨ ∃ v, mapping !! "protoPayload" = Some v
           ∧ Parse_json_dumps v (mkAny "" "") = Ok None in
  (∀ v any, mapping !! "protoPayload" = Some v →
            Parse_json_dumps v (mkAny "" "") = Ok (Some any) →
            LogEntry.payload pb = LogEntry.ProtoPayload any)
  ∧ (untouched →
     ∀ d, mapping !! "jsonPayload" = Some (VDict d) → d ≠ ∅ →
          LogEntry.HasField pb "json_payload" = true)
  ∧ (untouched →
     mapping !! "jsonPayload" = None ∨ mapping !! "jsonPayload" = Some (VDict ∅) →
     LogEntry.payload pb
     = match mapping !! "textPayload" with
       | Some (VStr s) => LogEntry.TextPayload s
       | _ => LogEntry.PayloadUnset
       end).
Proof.
  intros Henc untouched.
  apply log_entry_mapping_to_pb_Ok in Henc
    as (p1 & p2 & _ & _ & Etext & _ & _ & _ & _ & Ejson & Eproto & _).
  assert (untouched → LogEntry.payload pb = p2) as Hp2.
  { intros [Hnone|(v & Hv & Hparse)].
    - by rewrite Hnone in Eproto.
    - rewrite Hv in Eproto. destruct Eproto as (written & Hwritten & ->).
      rewrite Hparse in Hwritten. by injection Hwritten as <-. }
  destruct (HasField_payload pb) as (_ & -> & _).
  split; [|split].
  - intros v any Hv Hparse. rewrite Hv in Eproto.
    destruct Eproto as (written & Hwritten & ->).
    rewrite Hparse in Hwritten. by injection Hwritten as <-.
  - intros Huntouched d Hd Hne. rewrite (Hp2 Huntouched). rewrite Hd in Ejson.
    destruct Ejson as (d' & [= <-] & Ejson). rewrite decide_False in Ejson by done.
    by destruct Ejson as (s0 & _ & ->).
  - intros Huntouched Hjson. rewrite (Hp2 Huntouched).
    assert (p2 = p1) as ->.
    { destruct Hjson as [Hjson|Hjson]; rewrite Hjson in Ejson; [done|].
      destruct Ejson as (d' & [= <-] & Ejson). by rewrite decide_True in Ejson. }
    destruct (mapping !! "textPayload"); [|done].
    by destruct Etext as (s & -> & ->).
Qed.


Lemma mapM_Ok_intro {A B : Type} (f : A → result B) (l : list A) (k : list B) :
  Forall2 (λ x y, f x = Ok y) l k → mapM f l = Ok k.
Proof.
  induction 1 as [|x y l k Hxy _ IH]; [done|]. simpl. rewrite Hxy. simpl.
  by rewrite IH.
Qed.

Lemma mapM_Raise {A B : Type} (f : A → result B) (l : list A) x e :
  x ∈ l → f x = Raise e → ∃ e', mapM f l = Raise e'.
Proof.
  intros Hx Hraise. induction l as [|y l IH]; [by apply elem_of_nil in Hx|].
  simpl. destruct (f y) as [b|e'] eqn:Hy; simpl; [|by eexists].
  apply elem_of_cons in Hx as [->|Hx]; [congruence|].
  destruct (IH Hx) as [e' ->]. by eexists.
Qed.

Lemma map_sequence_Ok_intro {A : Type} (j : gmap string A) :
  map_sequence (Ok <$> j) = Ok j.
Proof.
  unfold map_sequence.
  assert (∀ l : list (string * result A),
            Forall (λ kr, ∃ v, kr.2 = Ok v) l →
            ∃ l', mapM (λ kr : string * result A, v ← kr.2; Ok (kr.1, v)) l = Ok l'
                  ∧ l = prod_map id Ok <$> l') as Hlist.
  { induction 1 as [|[k r] l [v Hv] _ (l' & Hl' & ->)]; [by exists []|].
    simpl in Hv. subst r. exists ((k, v) :: l'). simpl. by rewrite Hl'. }
  destruct (Hlist (map_to_list (Ok <$> j))) as (l' & -> & Hl').
  { apply Forall_forall. intros [k r] Hkr. apply elem_of_map_to_list in Hkr.
    rewrite lookup_fmap in Hkr. destruct (j !! k) as [v|]; simplify_eq/=. eauto. }
  simpl. f_equal. apply map_eq. intros k.
  assert ((Ok (A:=A) <$> (list_to_map l' : gmap string A)) !! k
          = (Ok <$> j) !! k) as Hk.
  { by rewrite <-list_to_map_fmap, <-Hl', list_to_map_to_list. }
  rewrite !lookup_fmap in Hk.
  destruct (list_to_map l' !! k), (j !! k); by simplify_eq/=.
Qed.

(** X13.  [_struct_pb_to_mapping] decodes a struct key by key: it returns
    exactly when every value of the struct decodes, and the mapping it
    returns then has the keys of the struct, each with its value decoded. *)
Theorem struct_decodes_key_by_key (struct_pb : gmap string Value)
    (json : gmap string value) :
  _struct_pb_to_mapping struct_pb = Ok json
  ↔ ∀ k, _value_pb_to_value <$> struct_pb !! k = Ok <$> json !! k.
Proof.
  unfold _struct_pb_to_mapping. split.
  - intros Hdec k. apply map_sequence_Ok in Hdec.
    by rewrite <-!lookup_fmap, Hdec.
  - intros Hkeys. rewrite <-(map_sequence_Ok_intro json). f_equal.
    apply map_eq. intros k. by rewrite !lookup_fmap.
Qed.

(** X14.  A list value decodes element by element, in order: the result is
    a list of the same length, and one element that does not decode makes
    the whole list raise. *)
Theorem list_value_decodes_elementwise (values : list Value) :
  (∀ w, _value_pb_to_value (ListValue values) = Ok w →
        ∃ l, w = VList l ∧ Forall2 (λ v x, _value_pb_to_value v = Ok x) values l)
  ∧ (∀ v e, v ∈ values → _value_pb_to_value v = Raise e →
            ∃ e', _value_pb_to_value (ListValue values) = Raise e').
Proof.
  split.
  - intros w Hdec. simpl in Hdec. inv_bind Hdec. injection Hdec as <-.
    apply mapM_Ok in Ha. eauto.
  - intros v e Hv Hraise. simpl.
    destruct (mapM_Raise _value_pb_to_value values v e Hv Hraise) as [e' ->].
    by eexists.
Qed.




End Translation.

(** ** The API wrappers *)

Section LoggingAPI.
Context `{!Helpers} (api : Gax.LoggingServiceV2Api).

(** X17.  [list_entries] asks for the first page when it is given no
    token, and decodes the whole page or nothing: the result holds one
    mapping for each message, in order, and no token when the transport's
    is empty; a message that does not decode makes the call raise; an
    exception of the transport is passed on as it is. *)
Theorem list_entries_decodes_whole_page (projects : list string)
    (filter_ order_by : string) (page_size : Z) (page_token : option string) :
  let page :=
    Gax.list_log_entries api projects filter_ order_by page_size
      {| Gax.page_token := match page_token with
                           | Some token => Gax.Token token
                           | None => Gax.INITIAL_PAGE
                           end |} in
  (∀ pbs token entries next,
     page = Ok (pbs, token) →
     list_entries api projects filter_ order_by page_size page_token
     = Ok (entries, next) →
     Forall2 (λ pb mapping, _log_entry_pb_to_mapping pb = Ok mapping) pbs entries
     ∧ (token = "" → next = None) ∧ (token ≠ "" → next = Some token))
  ∧ (∀ pbs token pb e,
       page = Ok (pbs, token) → pb ∈ pbs → _log_entry_pb_to_mapping pb = Raise e →
       ∃ e', list_entries api projects filter_ order_by page_size page_token
             = Raise e')
  ∧ (∀ e, page = Raise e →
          list_entries api projects filter_ order_by page_size page_token
          = Raise e).
Proof.
  intros page. unfold list_entries.
  change (Gax.list_log_entries api projects filter_ order_by page_size
            {| Gax.page_token := page_token_or_INITIAL_PAGE page_token |})
    with page.
  split; [|split].
  - intros pbs token entries next -> Hlist. simpl in Hlist. inv_bind Hlist.
    injection Hlist as <- <-. split; [by apply mapM_Ok|].
    unfold token_or_None. split; intros Htoken.
    + by rewrite decide_True.
    + by rewrite decide_False.
  - intros pbs token pb e -> Hpb Hraise. simpl.
    destruct (mapM_Raise _log_entry_pb_to_mapping pbs pb e Hpb Hraise) as [e' ->].
    by eexists.
  - by intros e ->.
Qed.

(** X18.  [write_entries] encodes every entry before it calls the
    transport, and sends all of them or none: when all encode, its result
    is the transport's on the encoded messages, with [partial_success]
    false and no options; when one does not, it raises whatever the
    transport would have done. *)
Theorem write_entries_sends_all_or_nothing (entries : list (gmap string value))
    (logger_name : option string) (resource labels : option value) :
  (∀ entry_pbs,
     Forall2 (λ mapping pb, _log_entry_mapping_to_pb mapping = Ok pb)
       entries entry_pbs →
     write_entries api entries logger_name resource labels
     = Gax.write_log_entries api entry_pbs logger_name resource labels false None)
  ∧ (∀ mapping e,
       mapping ∈ entries → _log_entry_mapping_to_pb mapping = Raise e →
       ∃ e', ∀ api' : Gax.LoggingServiceV2Api,
               write_entries api' entries logger_name resource labels = Raise e').
Proof.
  unfold write_entries. split.
  - intros entry_pbs Hall. by rewrite (mapM_Ok_intro _ _ _ Hall).
  - intros mapping e Hin Hraise.
    destruct (mapM_Raise _log_entry_mapping_to_pb entries mapping e Hin Hraise)
      as [e' ->].
    by exists e'.
Qed.

End LoggingAPI.

(** X19.  The three deletions return when the transport returns, turn a
    [GaxError] whose cause carries NOT_FOUND into [NotFound] on the path of
    what was to be deleted, and re-raise any other exception as it is. *)
Theorem deletes_translate_not_found (logs : Gax.LoggingServiceV2Api)
    (sinks : Gax.ConfigServiceV2Api) (metrics : Gax.MetricsServiceV2Api)
    (project name : string) :
  let translates (reply outcome : result unit) (path : string) :=
    (reply = Ok () → outcome = Ok ())
    ∧ (∀ cause, reply = Raise (GaxError cause) →
                exc_to_code cause = Some NOT_FOUND →
                outcome = Raise (NotFound path))
    ∧ (∀ e, reply = Raise e →
            (∀ cause, e = GaxError cause → exc_to_code cause ≠ Some NOT_FOUND) →
            outcome = Raise e) in
  let log_path := "projects/" +:+ project +:+ "/logs/" +:+ name in
  let sink_path := "projects/" +:+ project +:+ "/sinks/" +:+ name in
  let metric_path := "projects/" +:+ project +:+ "/metrics/" +:+ name in
  translates (Gax.delete_log logs log_path None)
    (logger_delete logs project name) log_path
  ∧ translates (Gax.delete_sink sinks sink_path None)
      (sink_delete sinks project name) sink_path
  ∧ translates (Gax.delete_log_metric metrics metric_path None)
      (metric_delete metrics project name) metric_path.
Proof.
  intros translates log_path sink_path metric_path.
  unfold translates, logger_delete, sink_delete, metric_delete.
  split; [|split];
    (split; [apply except_GaxError_returns|];
     split; [apply except_GaxError_translates|apply except_GaxError_reraises]).
Qed.

(** X20.  [sink_update] and [metric_update] turn a [GaxError] whose cause
    carries NOT_FOUND into [NotFound] on the path of the sink or metric,
    and re-raise any other exception as it is. *)
Theorem updates_translate_not_found (sinks : Gax.ConfigServiceV2Api)
    (metrics : Gax.MetricsServiceV2Api)
    (project name filter_ destination description : string) :
  let translates {A B : Type} (reply : result A) (outcome : result B)
      (path : string) :=
    (∀ cause, reply = Raise (GaxError cause) →
              exc_to_code cause = Some NOT_FOUND →
              outcome = Raise (NotFound path))
    ∧ (∀ e, reply = Raise e →
            (∀ cause, e = GaxError cause → exc_to_code cause ≠ Some NOT_FOUND) →
            outcome = Raise e) in
  let sink_path := "projects/" +:+ project +:+ "/sinks/" +:+ name in
  let metric_path := "projects/" +:+ project +:+ "/metrics/" +:+ name in
  translates
    (Gax.update_sink sinks sink_path (LogSink.mk sink_path destination filter_) None)
    (sink_update sinks project name filter_ destination) sink_path
  ∧ translates
      (Gax.update_log_metric metrics metric_path
         (LogMetric.mk metric_path description filter_) None)
      (metric_update metrics project name filter_ description) metric_path.
Proof.
  intros translates sink_path metric_path.
  unfold translates, sink_update, metric_update.
  repeat split.
  - intros cause Hraise Hcode.
    by rewrite (except_GaxError_translates _ _ _ cause Hraise Hcode).
  - intros e Hraise Hother.
    by rewrite (except_GaxError_reraises _ _ _ e Hraise Hother).
  - intros cause Hraise Hcode.
    by rewrite (except_GaxError_translates _ _ _ cause Hraise Hcode).
  - intros e Hraise Hother.
    by rewrite (except_GaxError_reraises _ _ _ e Hraise Hother).
Qed.

(** X21.  [metric_create] turns a [GaxError] whose cause carries
    FAILED_PRECONDITION into [Conflict] on
    [projects/{project}/metrics/{name}], and returns nothing of the
    transport's answer; [metric_get] turns one whose cause carries
    NOT_FOUND into [NotFound] on the same path, and returns the mapping of
    the metric the transport answered with; each re-raises any other
    exception as it is. *)
Theorem metric_create_get_translate_status (api : Gax.MetricsServiceV2Api)
    (project metric_name filter_ description : string) :
  let path := "projects/" +:+ project +:+ "/metrics/" +:+ metric_name in
  let created :=
    Gax.create_log_metric api ("projects/" +:+ project)
      (LogMetric.mk metric_name description filter_) None in
  let got := Gax.get_log_metric api path None in
  (∀ metric_pb, created = Ok metric_pb →
                metric_create api project metric_name filter_ description = Ok ())
  ∧ (∀ cause, created = Raise (GaxError cause) →
              exc_to_code cause = Some FAILED_PRECONDITION →
              metric_create api project metric_name filter_ description
              = Raise (Conflict path))
  ∧ (∀ e, created = Raise e →
          (∀ cause, e = GaxError cause →
                    exc_to_code cause ≠ Some FAILED_PRECONDITION) →
          metric_create api project metric_name filter_ description = Raise e)
  ∧ (∀ metric_pb, got = Ok metric_pb →
                  metric_get api project metric_name
                  = Ok (_log_metric_pb_to_mapping metric_pb))
  ∧ (∀ cause, got = Raise (GaxError cause) →
              exc_to_code cause = Some NOT_FOUND →
              metric_get api project metric_name = Raise (NotFound path))
  ∧ (∀ e, got = Raise e →
          (∀ cause, e = GaxError cause → exc_to_code cause ≠ Some NOT_FOUND) →
          metric_get api project metric_name = Raise e).
Proof.
  intros path created got. unfold metric_create, metric_get. repeat split.
  - intros metric_pb Hok. by rewrite (except_GaxError_returns _ _ _ _ Hok).
  - intros cause Hraise Hcode.
    by rewrite (except_GaxError_translates _ _ _ cause Hraise Hcode).
  - intros e Hraise Hother.
    by rewrite (except_GaxError_reraises _ _ _ e Hraise Hother).
  - intros metric_pb Hok. by rewrite (except_GaxError_returns _ _ _ _ Hok).
  - intros cause Hraise Hcode.
    by rewrite (except_GaxError_translates _ _ _ cause Hraise Hcode).
  - intros e Hraise Hother.
    by rewrite (except_GaxError_reraises _ _ _ e Hraise Hother).
Qed.

(** X22.  [list_sinks] and [list_metrics] ask for the first page when they
    are given no token, return one mapping for each message of the page, in
    order, with no token when the transport's is empty, and pass every
    exception of the transport on as it is: a NOT_FOUND is not
    translated. *)
Theorem list_sinks_and_metrics_map_the_page (sinks : Gax.ConfigServiceV2Api)
    (metrics : Gax.MetricsServiceV2Api) (project : string) (page_size : Z)
    (page_token : option string) :
  let options :=
    {| Gax.page_token := match page_token with
                         | Some token => Gax.Token token
                         | None => Gax.INITIAL_PAGE
                         end |} in
  let next (token : string) := if decide (token = "") then None else Some token in
  let sink_page := Gax.list_sinks sinks ("projects/" +:+ project) page_size options in
  let metric_page :=
    Gax.list_log_metrics metrics ("projects/" +:+ project) page_size options in
  (∀ pbs token, sink_page = Ok (pbs, token) →
     list_sinks sinks project page_size page_token
     = Ok (_log_sink_pb_to_mapping <$> pbs, next token))
  ∧ (∀ e, sink_page = Raise e →
          list_sinks sinks project page_size page_token = Raise e)
  ∧ (∀ pbs token, metric_page = Ok (pbs, token) →
       list_metrics metrics project page_size page_token
       = Ok (_log_metric_pb_to_mapping <$> pbs, next token))
  ∧ (∀ e, metric_page = Raise e →
          list_metrics metrics project page_size page_token = Raise e).
Proof.
  intros options next sink_page metric_page. unfold list_sinks, list_metrics.
  change {| Gax.page_token := page_token_or_INITIAL_PAGE page_token |}
    with options.
  fold sink_page metric_page. repeat split.
  - by intros pbs token ->.
  - by intros e ->.
  - by intros pbs token ->.
  - by intros e ->.
Qed.

(** ** Examples *)
Import Examples MoreExamples.

(** X4 on the full mapping with a [trace] key added. *)
Lemma encoder_ignores_unknown_keys_witness :
  _log_entry_mapping_to_pb (<["trace" := VStr "t-1"]> full_mapping)
  = _log_entry_mapping_to_pb full_mapping.
Proof.
  apply (encoder_ignores_unknown_keys full_mapping "trace" (VStr "t-1")).
  apply (bool_decide_unpack _). vm_compute. exact I.
Defined.

(** X5 on the full request dict with a [latency] key added. *)
Lemma http_request_ignores_unknown_keys_witness :
  _http_request_mapping_to_pb
    (VDict (<["latency" := VStr "0.1s"]> (http_request_mapping example_request)))
    HttpRequest.default
  = _http_request_mapping_to_pb (VDict (http_request_mapping example_request))
      HttpRequest.default.
Proof.
  apply (http_request_ignores_unknown_keys (http_request_mapping example_request)
           "latency" (VStr "0.1s") HttpRequest.default).
  apply (bool_decide_unpack _). vm_compute. exact I.
Defined.

(** X6 on a resource with a label and the same resource without. *)
Lemma encoder_keeps_only_resource_type_witness :
  _log_entry_mapping_to_pb (<["resource" := VDict labelled_resource]> full_mapping)
  = _log_entry_mapping_to_pb (<["resource" := VDict bare_resource]> full_mapping).
Proof.
  apply (encoder_keeps_only_resource_type full_mapping labelled_resource
           bare_resource).
  vm_compute. reflexivity.
Defined.

(** X7 on the message with a text payload. *)
Lemma decoded_payload_keys_exclude_each_other_witness :
  (is_Some (text_decoded !! "textPayload") →
   text_decoded !! "jsonPayload" = None ∧ text_decoded !! "protoPayload" = None)
  ∧ (is_Some (text_decoded !! "jsonPayload") →
     text_decoded !! "textPayload" = None ∧ text_decoded !! "protoPayload" = None)
  ∧ (is_Some (text_decoded !! "protoPayload") →
     text_decoded !! "textPayload" = None ∧ text_decoded !! "jsonPayload" = None).
Proof.
  apply (decoded_payload_keys_exclude_each_other text_entry_pb text_decoded).
  vm_compute. reflexivity.
Defined.

(** X8 on a payload that holds one [None]. *)
Lemma none_in_json_payload_does_not_decode_witness :
  ∃ e, _log_entry_pb_to_mapping null_payload_pb = Raise e.
Proof.
  apply (none_in_json_payload_does_not_decode null_payload_mapping
           {[ "note" := VNone ]} "note" null_payload_pb).
  - reflexivity.
  - reflexivity.
  - reflexivity.
  - vm_compute. reflexivity.
Defined.

(** X10 on the message with a text payload: the helper of the examples
    takes datetimes only. *)
Lemma decoded_mapping_reencodes_up_to_timestamp_witness :
  ∃ text, text_decoded !! "timestamp" = Some (VStr text)
          ∧ ∀ e, _datetime_to_pb_timestamp (VStr text) = Raise e →
                 _log_entry_mapping_to_pb text_decoded = Raise e.
Proof.
  apply (decoded_mapping_reencodes_up_to_timestamp text_entry_pb text_decoded).
  vm_compute. reflexivity.
Defined.

(** X11 on the full mapping. *)
Lemma encoder_returns_only_on_well_typed_values_witness :
  (∀ k v, k ∈ ["logName"; "insertId"; "textPayload"] →
          full_mapping !! k = Some v → ∃ s, v = VStr s)
  ∧ (∀ v, full_mapping !! "resource" = Some v →
          ∃ d s, v = VDict d ∧ d !! "type" = Some (VStr s))
  ∧ (∀ v, full_mapping !! "severity" = Some v →
          (∃ name code, v = VStr name ∧ (name, code) ∈ LogSeverity.values)
          ∨ (∃ n, v = VInt n ∧ - 2 ^ 31 ≤ n < 2 ^ 31) ∨ (∃ b, v = VBool b))
  ∧ (∀ v, full_mapping !! "labels" = Some v →
          ∃ l : gmap string string, v = VDict (VStr <$> l))
  ∧ (∀ v, full_mapping !! "jsonPayload" = Some v → ∃ d, v = VDict d)
  ∧ (∀ v, full_mapping !! "operation" = Some v →
          ∃ d producer id, v = VDict d ∧ d !! "producer" = Some (VStr producer)
                           ∧ d !! "id" = Some (VStr id)).
Proof.
  apply (encoder_returns_only_on_well_typed_values full_mapping full_entry_pb).
  vm_compute. reflexivity.
Defined.

(** X12 on a mapping with a text payload and an empty [protoPayload]:
    the message keeps the text payload. *)
Lemma later_payload_key_replaces_earlier_witness :
  let untouched :=
    text_and_empty_proto_mapping !! "protoPayload" = None
    ∨ ∃ v, text_and_empty_proto_mapping !! "protoPayload" = Some v
           ∧ Parse_json_dumps v (mkAny "" "") = Ok None in
  (∀ v any, text_and_empty_proto_mapping !! "protoPayload" = Some v →
            Parse_json_dumps v (mkAny "" "") = Ok (Some any) →
            LogEntry.payload text_entry_pb = LogEntry.ProtoPayload any)
  ∧ (untouched →
     ∀ d, text_and_empty_proto_mapping !! "jsonPayload" = Some (VDict d) → d ≠ ∅ →
          LogEntry.HasField text_entry_pb "json_payload" = true)
  ∧ (untouched →
     text_and_empty_proto_mapping !! "jsonPayload" = None
     ∨ text_and_empty_proto_mapping !! "jsonPayload" = Some (VDict ∅) →
     LogEntry.payload text_entry_pb
     = match text_and_empty_proto_mapping !! "textPayload" with
       | Some (VStr s) => LogEntry.TextPayload s
       | _ => LogEntry.PayloadUnset
       end).
Proof.
  apply (later_payload_key_replaces_earlier text_and_empty_proto_mapping
           text_entry_pb).
  vm_compute. reflexivity.
Defined.



End LoggingExtra.
